(** * AIPOlytics: the IPO scraping pipeline and its cache, embedded in Rocq

    The development follows the two source files:
    - [start.py]: [scrape_ipo_dashboard], [get_page_source_with_selenium],
      [parse_and_aggregate_data], [get_ipo_analysis_with_gemini];
    - [app.py]: [get_cached_ipos], [parse_analysis_sections] and the
      handlers [get_ipos], [analyze_ipo], [refresh_ipos].

    Python text is modelled by [string] read as a sequence of code points
    below 256; dictionaries by [gmap string _]; the parsed HTML by a rose
    tree of text and tag nodes, queried the way BeautifulSoup is queried;
    the process-wide [ipo_cache] by an explicit state threaded through a
    small state-and-exception monad that also counts the calls made to the
    external collaborators (browser, language model). *)

From Stdlib Require Import ZArith Ascii String List Lia Bool.
From stdpp Require Import base option strings gmap pretty.
Import ListNotations.

Set Warnings "-register-all".

Local Open Scope string_scope.

(** ** Python [str] primitives *)

Module PyStr.

Definition chr (n : nat) : string := String (ascii_of_nat n) EmptyString.

(** the newline character and the double quote *)
Definition nl : string := chr 10.
Definition dq : string := chr 34.

(** [str.isspace] on one character, for code points below 256: tab,
    line feed, vertical tab, form feed, carriage return, the four
    separators 28..31, space, NEL (133) and the no-break space (160). *)
Definition isspace (c : ascii) : bool :=
  let n := nat_of_ascii c in
  (((9 <=? n) && (n <=? 13)) || ((28 <=? n) && (n <=? 32))
   || (n =? 133) || (n =? 160))%nat.

Fixpoint lstrip (s : string) : string :=
  match s with
  | EmptyString => EmptyString
  | String c s' => if isspace c then lstrip s' else s
  end.

(** [rstrip] keeps a character when something non-blank follows it. *)
Fixpoint rstrip (s : string) : string :=
  match s with
  | EmptyString => EmptyString
  | String c s' =>
      match rstrip s' with
      | EmptyString => if isspace c then EmptyString else String c EmptyString
      | r => String c r
      end
  end.

(** [s.strip()] *)
Definition strip (s : string) : string := rstrip (lstrip s).

(** [c.lower()] for code points below 256: A..Z and the Latin-1 capitals
    192..222 (without the multiplication sign 215) move up by 32. *)
Definition lower_char (c : ascii) : ascii :=
  let n := nat_of_ascii c in
  if (((65 <=? n) && (n <=? 90))
      || ((192 <=? n) && (n <=? 222) && negb (n =? 215)))%nat
  then ascii_of_nat (n + 32) else c.

(** [s.lower()] *)
Fixpoint lower (s : string) : string :=
  match s with
  | EmptyString => EmptyString
  | String c s' => String (lower_char c) (lower s')
  end.

(** [s.startswith(p)] *)
Fixpoint startswith (s p : string) : bool :=
  match p, s with
  | EmptyString, _ => true
  | String _ _, EmptyString => false
  | String a p', String b s' => if Ascii.eqb a b then startswith s' p' else false
  end.

(** [s.startswith((p1, p2, ...))]: a tuple of prefixes *)
Definition startswith_any (s : string) (ps : list string) : bool :=
  existsb (startswith s) ps.

(** [s.endswith(p)] *)
Definition endswith (s p : string) : bool :=
  let ls := String.length s in
  let lp := String.length p in
  (lp <=? ls)%nat && String.eqb (String.substring (ls - lp) lp s) p.

(** [sub in s] *)
Fixpoint contains (sub s : string) : bool :=
  startswith s sub
  || match s with
     | EmptyString => false
     | String _ s' => contains sub s'
     end.

(** [s.replace(c, '')] for a one-character [c] *)
Fixpoint remove_char (c : ascii) (s : string) : string :=
  match s with
  | EmptyString => EmptyString
  | String a s' => if Ascii.eqb a c then remove_char c s' else String a (remove_char c s')
  end.

(** [s[n:]] *)
Fixpoint drop (n : nat) (s : string) : string :=
  match n, s with
  | O, _ => s
  | S _, EmptyString => EmptyString
  | S n', String _ s' => drop n' s'
  end.

(** [s.split(c)] for a one-character separator: never the empty list. *)
Fixpoint split (c : ascii) (s : string) : list string :=
  match s with
  | EmptyString => [EmptyString]
  | String a s' =>
      if Ascii.eqb a c then EmptyString :: split c s'
      else match split c s' with
           | [] => [String a EmptyString]
           | w :: ws => String a w :: ws
           end
  end.

(** [sep.join(parts)] *)
Fixpoint join (sep : string) (parts : list string) : string :=
  match parts with
  | [] => EmptyString
  | [p] => p
  | p :: ps => p +:+ sep +:+ join sep ps
  end.

(** truthiness of a string: [if s] *)
Definition truthy (s : string) : bool :=
  match s with EmptyString => false | _ => true end.

End PyStr.

(** ** [parse_analysis_sections] (app.py) *)

Definition section_prefixes : list string := ["1."; "2."; "3."; "4."; "5."; "6."].

(** the header test of the loop body, on the stripped line *)
Definition is_section_header (line : string) : bool :=
  (PyStr.startswith line "**" && PyStr.endswith line ":**")
  || PyStr.startswith_any line section_prefixes.

(** the title a header line opens *)
Definition section_title (line : string) : string :=
  let current_section :=
    PyStr.strip (PyStr.remove_char ":" (PyStr.remove_char "*" line)) in
  if PyStr.startswith_any current_section section_prefixes
  then PyStr.strip (PyStr.drop 2 current_section)
  else current_section.

(** The three variables the loop updates: the dictionary, the open title
    ([None] before the first header) and the lines gathered for it, kept
    in the order they were appended. *)
Record ParserState := {
  sections : gmap string string;
  current_section : option string;
  current_content : list string
}.

(** [if current_section: sections[current_section] = '\n'.join(current_content)];
    the empty title is falsy like [None]. *)
Definition save_section (st : ParserState) : gmap string string :=
  match current_section st with
  | Some t =>
      if PyStr.truthy t
      then <[t := PyStr.join PyStr.nl (current_content st)]> (sections st)
      else sections st
  | None => sections st
  end.

(** one iteration of [for line in lines] *)
Definition parser_step (st : ParserState) (raw : string) : ParserState :=
  let line := PyStr.strip raw in
  if negb (PyStr.truthy line) then st
  else if is_section_header line then
    {| sections := save_section st;
       current_section := Some (section_title line);
       current_content := [] |}
  else
    {| sections := sections st;
       current_section := current_section st;
       current_content := current_content st ++ [line] |}.

Definition parse_analysis_sections (analysis_text : string) : gmap string string :=
  let lines := PyStr.split "010"%char analysis_text in
  save_section
    (fold_left parser_step lines
       {| sections := ∅; current_section := None; current_content := [] |}).

(** the two texts of the parser's examples *)
Definition emphasis_text : string :=
  "**Snapshot:**" +:+ PyStr.nl +:+ "Line A" +:+ PyStr.nl +:+
  "**Verdict:**" +:+ PyStr.nl +:+ "Line B".

Definition numbered_text : string :=
  "1. Snapshot" +:+ PyStr.nl +:+ "Line A" +:+ PyStr.nl +:+
  "2. Verdict" +:+ PyStr.nl +:+ "Line B".

(** ** Results and exceptions *)

(** The exception classes the two files can meet; all of them are
    subclasses of [Exception], the string is [str(e)]. *)
Inductive Exn :=
| TypeError (msg : string)
| AttributeError (msg : string)
| ValueError (msg : string)
| IndexError (msg : string)
| TimeoutException (msg : string)
| WebDriverException (msg : string)
| ApiError (msg : string).

Definition str_of_exn (e : Exn) : string :=
  match e with
  | TypeError m | AttributeError m | ValueError m | IndexError m
  | TimeoutException m | WebDriverException m | ApiError m => m
  end.

(** what a call hands to its caller: a value, or a raised exception *)
Inductive Result (A : Type) :=
| Return (a : A)
| Raise (e : Exn).
Arguments Return {A} a.
Arguments Raise {A} e.

Definition rbind {A B} (r : Result A) (k : A -> Result B) : Result B :=
  match r with
  | Return a => k a
  | Raise e => Raise e
  end.

(** ** The parsed document, as BeautifulSoup presents it *)

Module Soup.

(** The classes of string the tree builder makes: plain text and CDATA
    sections, comments, the text inside [script], [style], [template],
    [rt] and [rp] tags, and declarations (doctype, processing
    instruction).  All of them are subclasses of [NavigableString]. *)
Inductive StringKind :=
| PlainString
| CDataString
| CommentString
| ScriptString
| StylesheetString
| TemplateString
| RubyTextString
| RubyParenthesisString
| DeclarationString.

Definition StringKind_eqb (a b : StringKind) : bool :=
  match a, b with
  | PlainString, PlainString | CDataString, CDataString
  | CommentString, CommentString | ScriptString, ScriptString
  | StylesheetString, StylesheetString | TemplateString, TemplateString
  | RubyTextString, RubyTextString
  | RubyParenthesisString, RubyParenthesisString
  | DeclarationString, DeclarationString => true
  | _, _ => false
  end.

(** A node is a string of some class or a tag with its attribute
    dictionary and its contents in document order. *)
Inductive Node :=
| NavigableString (kind : StringKind) (s : string)
| Tag (name : string) (attrs : gmap string string) (contents : list Node).

(** a soup is the list of the top-level nodes of the document *)
Definition Document := list Node.

Definition is_tag (n : Node) : bool :=
  match n with Tag _ _ _ => true | NavigableString _ _ => false end.

(** [n.name in names]; a string has no name *)
Definition named (names : list string) (n : Node) : bool :=
  match n with
  | Tag nm _ _ => existsb (String.eqb nm) names
  | NavigableString _ _ => false
  end.

(** [tag.has_attr(k)] and [tag[k]] *)
Definition attr (k : string) (n : Node) : option string :=
  match n with
  | Tag _ attrs _ => attrs !! k
  | NavigableString _ _ => None
  end.

(** [Tag.DEFAULT_INTERESTING_STRING_TYPES] *)
Definition default_string_types : list StringKind := [PlainString; CDataString].

(** [tag.interesting_string_types]: the class the html builder's
    [string_containers] names for this tag, else the default ones
    (BeautifulSoup 4.11 and later). *)
Definition interesting_string_types (nm : string) : list StringKind :=
  if String.eqb nm "rt" then [RubyTextString]
  else if String.eqb nm "rp" then [RubyParenthesisString]
  else if String.eqb nm "style" then [StylesheetString]
  else if String.eqb nm "script" then [ScriptString]
  else if String.eqb nm "template" then [TemplateString]
  else default_string_types.

(** the strings of the given classes at and below a node, in document
    order *)
Fixpoint strings_of (types : list StringKind) (n : Node) : list string :=
  match n with
  | NavigableString k s => if existsb (StringKind_eqb k) types then [s] else []
  | Tag _ _ cs => flat_map (strings_of types) cs
  end.

(** [n._all_strings()]: the descendant strings whose class is one of the
    interesting string types of [n]; comments, declarations and the text
    of nested [script] or [style] tags are passed over. *)
Definition all_strings (n : Node) : list string :=
  match n with
  | NavigableString _ _ => strings_of default_string_types n
  | Tag nm _ cs => flat_map (strings_of (interesting_string_types nm)) cs
  end.

(** [n.get_text()], also the property [n.text] *)
Definition get_text (n : Node) : string :=
  PyStr.join "" (all_strings n).

(** [n.get_text(separator=sep, strip=True)]: every string is stripped,
    the empty ones are dropped, the rest joined by [sep]. *)
Definition get_text_strip (sep : string) (n : Node) : string :=
  PyStr.join sep (filter (fun s => PyStr.truthy s) (map PyStr.strip (all_strings n))).

(** [tag.string]: the single string of a tag that has exactly one
    child, followed through single-child tags, whatever the class of that
    string; [None] otherwise. *)
Fixpoint dot_string (n : Node) : option string :=
  match n with
  | NavigableString _ s => Some s
  | Tag _ _ cs =>
      match cs with
      | [c] => dot_string c
      | _ => None
      end
  end.

(** An element met during a traversal, together with the siblings that
    follow it under its parent. *)
Record Located := { element : Node; following : list Node }.

(** the node and everything below it, in document order *)
Fixpoint located (n : Node) (sibs : list Node) : list Located :=
  {| element := n; following := sibs |}
  :: match n with
     | NavigableString _ _ => []
     | Tag _ _ cs =>
         (fix forest (l : list Node) : list Located :=
            match l with
            | [] => []
            | c :: l' => (located c l' ++ forest l')%list
            end) cs
     end.

Fixpoint located_forest (l : list Node) : list Located :=
  match l with
  | [] => []
  | c :: l' => (located c l' ++ located_forest l')%list
  end.

(** [n.descendants] *)
Definition descendants (n : Node) : list Located :=
  match n with
  | NavigableString _ _ => []
  | Tag _ _ cs => located_forest cs
  end.

(** [n.find_all(names)] for a list of tag names, recursive *)
Definition find_all (names : list string) (n : Node) : list Located :=
  filter (fun l => named names (element l)) (descendants n).

(** [n.find(name)]: the first of [find_all] *)
Definition find (nm : string) (n : Node) : option Node :=
  element <$> head (find_all [nm] n).

(** [tag.find_next_siblings()] with no filter: the tags among the
    following siblings; strings between them are not yielded. *)
Definition find_next_siblings (l : Located) : list Node :=
  filter (fun n => is_tag n) (following l).

(** [soup.find('div', id=v)] over a whole document *)
Definition find_div_by_id (v : string) (d : Document) : option Node :=
  element <$>
    head (filter (fun l => named ["div"] (element l)
                           && bool_decide (attr "id" (element l) = Some v))
                 (located_forest d)).

End Soup.

Import Soup.

(** ** [scrape_ipo_dashboard] (start.py) *)

(** the dictionaries [{"name": ..., "url": ...}] the scrape appends *)
Record IPOListing := { name : string; url : string }.

(** What a call of [scrape_ipo_dashboard] gives back: the empty list of
    its three [return []], or the tuple [current_ipos, upcoming_ipos] of
    its last line. *)
Inductive ScrapeResult :=
| EmptyList
| Lists (current_ipos upcoming_ipos : list IPOListing).

(** What the headless browser does for the dashboard.  [dashboard_load] is
    the outcome of [driver.get] and the 20-second wait followed by
    [driver.page_source], parsed by html.parser; a [Raise] stands for any
    exception raised there (a [TimeoutException] when the heading never
    shows up).  [filter_sees_None] tells how the installed BeautifulSoup
    treats a [string=] filter on a tag whose [.string] is [None]: before
    4.13 the filter is called on [None], from 4.13 on the tag does not
    match.  [browser_start] is the exception [webdriver.Chrome(...)]
    raises, if any: it stands before the [try].  [browser_quit] is the
    exception [driver.quit()] raises in the [finally], if any. *)
Record Dashboard := {
  dashboard_load : Result Document;
  filter_sees_None : bool;
  browser_start : option Exn;
  browser_quit : option Exn
}.

Definition mainboard_title : string := "Current IPOs (Mainboard)".

(** [lambda text: 'Current IPOs (Mainboard)' in text] *)
Definition mainboard_filter (text : option string) : Result bool :=
  match text with
  | Some t => Return (PyStr.contains mainboard_title t)
  | None => Raise (TypeError "argument of type 'NoneType' is not iterable")
  end.

(** [soup.find('h2', string=...)] along the document order; on a match it
    gives the elements that come after the heading ([next_elements]). *)
Fixpoint find_mainboard_header (sees_None : bool) (els : list Located)
  : Result (option (list Located)) :=
  match els with
  | [] => Return None
  | l :: rest =>
      if named ["h2"] (element l) then
        match dot_string (element l) with
        | None =>
            if sees_None then rbind (mainboard_filter None) (fun _ => Return None)
            else find_mainboard_header sees_None rest
        | Some t =>
            rbind (mainboard_filter (Some t)) (fun hit =>
              if hit then Return (Some rest)
              else find_mainboard_header sees_None rest)
        end
      else find_mainboard_header sees_None rest
  end.

(** [mainboard_header.find_next('table')] *)
Definition find_next_table (after : list Located) : option Node :=
  element <$> head (filter (fun l => named ["table"] (element l)) after).

(** [ipo_table.find('tbody').find_all('tr')]: [find] may give [None],
    on which [.find_all] is an [AttributeError]. *)
Definition table_rows (ipo_table : Node) : Result (list Located) :=
  match Soup.find "tbody" ipo_table with
  | Some tbody => Return (find_all ["tr"] tbody)
  | None => Raise (AttributeError "'NoneType' object has no attribute 'find_all'")
  end.

Definition site_origin : string := "https://www.chittorgarh.com".

(** The inner block shared by the two status branches: the name from the
    first cell, the link from its first anchor, nothing when the anchor or
    its [href] is missing. *)
Definition listing_of_cell (cell0 : Node) : option IPOListing :=
  let company_name := PyStr.strip (get_text cell0) in
  match Soup.find "a" cell0 with
  | Some link_tag =>
      match attr "href" link_tag with
      | Some relative_url =>
          Some {| name := company_name; url := site_origin +:+ relative_url |}
      | None => None
      end
  | None => None
  end.

(** the body of [for row in rows], on the pair of lists it appends to *)
Definition row_step (acc : list IPOListing * list IPOListing) (row : Located)
  : list IPOListing * list IPOListing :=
  let '(current_ipos, upcoming_ipos) := acc in
  let cells := find_all ["td"] (element row) in
  if (4 <=? length cells)%nat then
    match cells !! 3%nat, cells !! 0%nat with
    | Some c3, Some c0 =>
        let status := PyStr.strip (get_text (element c3)) in
        if String.eqb (PyStr.lower status) "current" then
          match listing_of_cell (element c0) with
          | Some ipo => ((current_ipos ++ [ipo])%list, upcoming_ipos)
          | None => acc
          end
        else if String.eqb (PyStr.lower status) "upcoming" then
          match listing_of_cell (element c0) with
          | Some ipo => (current_ipos, (upcoming_ipos ++ [ipo])%list)
          | None => acc
          end
        else acc
    | _, _ => acc
    end
  else acc.

Definition scrape_rows (rows : list Located) : list IPOListing * list IPOListing :=
  fold_left row_step rows ([], []).

(** the body of the [try] block *)
Definition scrape_body (d : Dashboard) : Result ScrapeResult :=
  rbind (dashboard_load d) (fun soup =>
  rbind (find_mainboard_header (filter_sees_None d) (located_forest soup))
    (fun mainboard_header =>
  match mainboard_header with
  | None => Return EmptyList
  | Some after =>
      match find_next_table after with
      | None => Return EmptyList
      | Some ipo_table =>
          rbind (table_rows ipo_table) (fun rows =>
          let '(current_ipos, upcoming_ipos) := scrape_rows rows in
          Return (Lists current_ipos upcoming_ipos))
      end
  end)).

(** [try: ... except Exception as e: return []] *)
Definition scrape_try (d : Dashboard) : ScrapeResult :=
  match scrape_body d with
  | Return r => r
  | Raise _ => EmptyList
  end.

(** The whole call.  An exception of [webdriver.Chrome] goes to the
    caller, no browser was started and nothing is quit.  Otherwise the
    [try] gives its value, and the [finally] quits the browser: an
    exception of [driver.quit()] replaces the value. *)
Definition scrape_ipo_dashboard (d : Dashboard) : Result ScrapeResult :=
  match browser_start d with
  | Some e => Raise e
  | None =>
      let r := scrape_try d in
      match browser_quit d with
      | Some e => Raise e
      | None => Return r
      end
  end.

(** [current_ipos, upcoming_ipos = scrape_ipo_dashboard()]: unpacking a
    list of length 0 into two names is a [ValueError]. *)
Definition unpack_pair (r : ScrapeResult)
  : Result (list IPOListing * list IPOListing) :=
  match r with
  | Lists c u => Return (c, u)
  | EmptyList => Raise (ValueError "not enough values to unpack (expected 2, got 0)")
  end.

(** ** Time *)

(** A naive [datetime] is counted in microseconds from the start of the
    calendar; subtracting two of them gives a [timedelta], which Python
    keeps normalised as days, seconds (0..86399) and microseconds. *)
Definition datetime := Z.
Bind Scope Z_scope with datetime.

Record timedelta := { days : Z; seconds : Z; microseconds : Z }.

Definition us_per_second : Z := 1000000.
Definition us_per_day : Z := 86400 * us_per_second.

Definition timedelta_of_us (us : Z) : timedelta :=
  {| days := us / us_per_day;
     seconds := (us mod us_per_day) / us_per_second;
     microseconds := us mod us_per_second |}.

(** [a - b] on datetimes *)
Definition datetime_sub (a b : datetime) : timedelta := timedelta_of_us (a - b).

(** [td.total_seconds()], the whole seconds of it *)
Definition total_seconds (td : timedelta) : Z := days td * 86400 + seconds td.

(** [d.isoformat()], kept symbolic: the text determines the instant. *)
Inductive IsoString := isoformat (d : datetime).

(** ** The cache and the world around a request *)

(** the dictionary stored under an analysis key *)
Record AnalysisRecord := {
  a_ipo : IPOListing;
  a_ipo_type : string;
  a_type_label : string;
  a_raw_analysis : string;
  a_sections : gmap string string;
  a_analyzed_at : IsoString
}.

(** [ipo_cache] *)
Record Cache := {
  current_ipos : list IPOListing;
  upcoming_ipos : list IPOListing;
  last_updated : option datetime;
  analyses : gmap string AnalysisRecord
}.

(** the cache the module starts with, and [refresh_ipos] resets to *)
Definition empty_cache : Cache :=
  {| current_ipos := []; upcoming_ipos := []; last_updated := None; analyses := ∅ |}.

(** how often the external collaborators were called *)
Record Calls := { scrapes : nat; renders : nat; summaries : nat }.

Definition no_calls : Calls := {| scrapes := 0; renders := 0; summaries := 0 |}.

Record World := { cache : Cache; calls : Calls }.

(** What [driver.page_source] gives for a detail page: the text, and
    the tree [BeautifulSoup(html_content, 'html.parser')] builds from
    it. *)
Record PageSource := { page_text : string; page_tree : Document }.

(** What the outside answers during one request: the clock read by
    [get_cached_ipos], the dashboard, the detail page behind each URL
    (a [Raise (TimeoutException _)] is the timeout of the wait for the
    container, any other [Raise] an exception that leaves the call), the
    language
    model's answer to a prompt (a [Raise] is what [GenerativeModel],
    [generate_content] or [response.text] raised), and the clock read
    when the record is stamped. *)
Record Env := {
  now : datetime;
  dashboard : Dashboard;
  detail_load : string -> Result PageSource;
  generate_content : string -> Result string;
  now_stamp : datetime
}.

(** State and exceptions: a computation reads and writes the world and
    hands back a value or a raised exception; what was written before a
    raise stays written. *)
Definition M (A : Type) : Type := World -> Result A * World.

Definition ret {A} (a : A) : M A := fun w => (Return a, w).
Definition raise {A} (e : Exn) : M A := fun w => (Raise e, w).
Definition bind {A B} (m : M A) (k : A -> M B) : M B :=
  fun w => match m w with
           | (Return a, w') => k a w'
           | (Raise e, w') => (Raise e, w')
           end.
Definition lift {A} (r : Result A) : M A := fun w => (r, w).
Definition get_cache : M Cache := fun w => (Return (cache w), w).
Definition put_cache (c : Cache) : M unit :=
  fun w => (Return tt, {| cache := c; calls := calls w |}).
Definition count (f : Calls -> Calls) : M unit :=
  fun w => (Return tt, {| cache := cache w; calls := f (calls w) |}).
(** [try: m except Exception as e: h e] *)
Definition try_except {A} (m : M A) (h : Exn -> M A) : M A :=
  fun w => match m w with
           | (Return a, w') => (Return a, w')
           | (Raise e, w') => h e w'
           end.

Declare Scope py_scope.
Delimit Scope py_scope with py.
Notation "'do' x <- m ; k" := (bind m (fun x => k))
  (at level 10, x name, m at level 100, k at level 200) : py_scope.
Notation "'do' ' p <- m ; k" := (bind m (fun x => match x with p => k end))
  (at level 10, p pattern, m at level 100, k at level 200) : py_scope.
Notation "'run' m ; k" := (bind m (fun _ => k))
  (at level 10, m at level 100, k at level 200) : py_scope.
Local Open Scope py_scope.

Definition one_scrape (c : Calls) : Calls :=
  {| scrapes := S (scrapes c); renders := renders c; summaries := summaries c |}.
Definition one_render (c : Calls) : Calls :=
  {| scrapes := scrapes c; renders := S (renders c); summaries := summaries c |}.
Definition one_summary (c : Calls) : Calls :=
  {| scrapes := scrapes c; renders := renders c; summaries := S (summaries c) |}.

(** ** [get_cached_ipos] (app.py) *)

(** [not ipo_cache['last_updated'] or
     (current_time - ipo_cache['last_updated']).seconds > 3600] *)
Definition needs_fetch (current_time : datetime) (c : Cache) : bool :=
  match last_updated c with
  | None => true
  | Some t => (3600 <? seconds (datetime_sub current_time t))%Z
  end.

(** [xs if xs else []] *)
Definition or_empty (xs : list IPOListing) : list IPOListing :=
  match xs with [] => [] | _ => xs end.

Definition get_cached_ipos (env : Env) : M (list IPOListing * list IPOListing) :=
  let current_time := now env in
  do c <- get_cache;
  run (if needs_fetch current_time c then
         run count one_scrape;
         do scraped <- lift (scrape_ipo_dashboard (dashboard env));
         do ' (cur, up) <- lift (unpack_pair scraped);
         do c0 <- get_cache;
         put_cache {| current_ipos := or_empty cur;
                      upcoming_ipos := or_empty up;
                      last_updated := Some current_time;
                      analyses := analyses c0 |}
       else ret tt);
  do c' <- get_cache;
  ret (current_ipos c', upcoming_ipos c').

(** ** The analysis pipeline (start.py) *)

(** [get_page_source_with_selenium]: the page source, [None] on a
    [TimeoutException], any other exception goes on to the caller. *)
Definition get_page_source_with_selenium (env : Env) (page_url : string)
  : M (option PageSource) :=
  run count one_render;
  match detail_load env page_url with
  | Return page_source => ret (Some page_source)
  | Raise (TimeoutException _) => ret None
  | Raise e => raise e
  end.

Definition message_board : string := "Message Board".

(** the line between two sections: [f"\n\n--- Section: {title} ---\n"] *)
Definition section_delimiter (header : Node) : string :=
  PyStr.nl +:+ PyStr.nl +:+ "--- Section: " +:+ get_text_strip "" header
  +:+ " ---" +:+ PyStr.nl.

(** the inner [for sibling in header.find_next_siblings()], with its
    [break] at the next heading *)
Fixpoint sibling_loop (siblings : list Node) (content : string) : string :=
  match siblings with
  | [] => content
  | sibling :: rest =>
      if named ["h2"; "h3"] sibling then content
      else sibling_loop rest (content +:+ get_text_strip " " sibling +:+ " ")
  end.

(** the body of [for header in main_content.find_all(['h2', 'h3'])] *)
Definition header_step (aggregated_text : string) (header : Located) : string :=
  if PyStr.contains message_board (get_text (element header)) then aggregated_text
  else
    let aggregated_text := aggregated_text +:+ section_delimiter (element header) in
    let content := sibling_loop (find_next_siblings header) "" in
    aggregated_text +:+ content.

Definition parse_and_aggregate_data (html_content : Document) : option string :=
  match find_div_by_id "main" html_content with
  | None => None
  | Some main_content =>
      Some (PyStr.strip
              (fold_left header_step (find_all ["h2"; "h3"] main_content) ""))
  end.

(** the f-string of [get_ipo_analysis_with_gemini], line by line *)
Definition prompt_lines (ipo_data_text : string) : list string :=
  [ "";
    "    You are an expert IPO analyst with immense stock market knowledge, providing a summary for a retail investor. Based ONLY on the text provided below, generate a comprehensive analysis of the IPO. Structure your response as follows:";
    "    1.  **IPO Snapshot:** Briefly list the Issue Size, Price Band, and Dates.";
    "    2.  **Business Overview:** A one or two-sentence summary of what the company does.";
    "    3.  **Financial Health:** Briefly comment on the company's financial performance (revenue/profit trends) based on the data.";
    "    4.  **Positive Indicators (Reasons to consider applying):** Create a bulleted list of positive points.";
    "    5.  **Negative Indicators (Reasons for caution):** Create a bulleted list of negative points.";
    "    6.  **Final Verdict:** Conclude with a balanced, one-paragraph verdict based *strictly* on the provided information. Start with "
      +:+ PyStr.dq +:+ "Based on the available data..." +:+ PyStr.dq +:+ ".";
    "";
    "    --- IPO DATA START ---";
    "    " +:+ ipo_data_text;
    "    --- IPO DATA END ---";
    "    " ].

Definition prompt (ipo_data_text : string) : string :=
  PyStr.join PyStr.nl (prompt_lines ipo_data_text).

Definition api_error_prefix : string :=
  "An error occurred while communicating with the Google AI API: ".

(** [get_ipo_analysis_with_gemini]: the model's text stripped, or, when
    anything in the [try] raised, the sentence that reports it. *)
Definition get_ipo_analysis_with_gemini (env : Env) (ipo_data_text : string)
  : M string :=
  run count one_summary;
  match generate_content env (prompt ipo_data_text) with
  | Return text => ret (PyStr.strip text)
  | Raise e => ret (api_error_prefix +:+ str_of_exn e)
  end.

(** ** The request handlers (app.py) *)

(** the JSON documents the handlers build *)
Inductive Body :=
| IposBody (ipos_current ipos_upcoming : list IPOListing)
           (current_count upcoming_count total_count : nat)
           (updated : option IsoString)
| AnalysisBody (data : AnalysisRecord)
| RefreshBody (message : string) (current_count upcoming_count total_count : nat)
| ErrorBody (error : string).

(** a response: its HTTP status and its document *)
Record Response := { status : nat; body : Body }.

Definition respond (code : nat) (b : Body) : M Response :=
  ret {| status := code; body := b |}.

(** The outermost [try ... except Exception as e] of every handler: an
    exception that reaches it becomes a 500 with [str(e)]. *)
Definition handle (m : M Response) (w : World) : Response * World :=
  match m w with
  | (Return r, w') => (r, w')
  | (Raise e, w') => ({| status := 500; body := ErrorBody (str_of_exn e) |}, w')
  end.

(** [get_ipos] *)
Definition get_ipos (env : Env) : World -> Response * World :=
  handle (
    do ' (cur, up) <- get_cached_ipos env;
    do c <- get_cache;
    respond 200 (IposBody cur up (length cur) (length up) (length cur + length up)
                          (isoformat <$> last_updated c))).

Definition invalid_type_message : string :=
  "Invalid IPO type. Must be " +:+ PyStr.dq +:+ "current" +:+ PyStr.dq
  +:+ " or " +:+ PyStr.dq +:+ "upcoming" +:+ PyStr.dq.

(** [f"{ipo_type}_{ipo_index}_{ipo['name']}"] *)
Definition ipo_key_of (ipo_type : string) (ipo_index : nat) (ipo : IPOListing) : string :=
  ipo_type +:+ "_" +:+ pretty ipo_index +:+ "_" +:+ name ipo.

(** [analyze_ipo] from the index check on, once the list is chosen;
    [not html_content] holds for [None] and for the empty page text,
    [not aggregated_data] for [None] and for the empty string. *)
Definition analyze_selected (env : Env) (ipo_type : string) (ipo_index : nat)
    (ipos : list IPOListing) (type_label : string) : M Response :=
  if (length ipos <=? ipo_index)%nat then
    respond 400 (ErrorBody ("IPO index out of range for " +:+ ipo_type +:+ " IPOs"))
  else
    match ipos !! ipo_index with
    | None => raise (IndexError "list index out of range")
    | Some ipo =>
        let ipo_key := ipo_key_of ipo_type ipo_index ipo in
        do c <- get_cache;
        match analyses c !! ipo_key with
        | Some stored => respond 200 (AnalysisBody stored)
        | None =>
            do html_content <- get_page_source_with_selenium env (url ipo);
            match html_content with
            | None =>
                respond 500 (ErrorBody "Could not retrieve IPO details page")
            | Some page =>
                if negb (PyStr.truthy (page_text page)) then
                  respond 500 (ErrorBody "Could not retrieve IPO details page")
                else
                match parse_and_aggregate_data (page_tree page) with
                | None | Some EmptyString =>
                    respond 500 (ErrorBody "Could not parse IPO data from the page")
                | Some aggregated_data =>
                    do analysis_text <- get_ipo_analysis_with_gemini env aggregated_data;
                    let analysis_sections := parse_analysis_sections analysis_text in
                    let analysis_data :=
                      {| a_ipo := ipo;
                         a_ipo_type := ipo_type;
                         a_type_label := type_label;
                         a_raw_analysis := analysis_text;
                         a_sections := analysis_sections;
                         a_analyzed_at := isoformat (now_stamp env) |} in
                    do c1 <- get_cache;
                    run put_cache {| current_ipos := current_ipos c1;
                                     upcoming_ipos := upcoming_ipos c1;
                                     last_updated := last_updated c1;
                                     analyses := <[ipo_key := analysis_data]> (analyses c1) |};
                    respond 200 (AnalysisBody analysis_data)
                end
            end
        end
    end.

(** [analyze_ipo]; the route only admits a non-negative [ipo_index]. *)
Definition analyze_ipo (env : Env) (ipo_type : string) (ipo_index : nat)
  : World -> Response * World :=
  handle (
    do ' (cur, up) <- get_cached_ipos env;
    if String.eqb ipo_type "current" then
      analyze_selected env ipo_type ipo_index cur "CURRENT"
    else if String.eqb ipo_type "upcoming" then
      analyze_selected env ipo_type ipo_index up "UPCOMING"
    else respond 400 (ErrorBody invalid_type_message)).

(** [refresh_ipos]: the four assignments, then the same list read. *)
Definition refresh_ipos (env : Env) : World -> Response * World :=
  handle (
    run put_cache empty_cache;
    do ' (cur, up) <- get_cached_ipos env;
    respond 200 (RefreshBody "IPO data refreshed successfully"
                             (length cur) (length up) (length cur + length up))).

(** ** What the specification says, in its own words *)

(** *** Dashboard rows *)

(** the cells of a row *)
Definition row_cells (row : Located) : list Located := find_all ["td"] (element row).

(** the trimmed text of the 4th cell, when the row has at least 4 cells *)
Definition row_status (row : Located) : option string :=
  c3 ← row_cells row !! 3%nat; Some (PyStr.strip (get_text (element c3))).

(** the first anchor of the 1st cell and its [href] *)
Definition row_href (row : Located) : option string :=
  c0 ← row_cells row !! 0%nat;
  link_tag ← Soup.find "a" (element c0);
  attr "href" link_tag.

(** the trimmed text of the 1st cell *)
Definition row_name (row : Located) : option string :=
  c0 ← row_cells row !! 0%nat; Some (PyStr.strip (get_text (element c0))).

(** case-insensitive equality with a lower-case word *)
Definition status_is (word : string) (row : Located) : Prop :=
  exists st, row_status row = Some st /\ PyStr.lower st = word.

(** The listing a row contributes to the list of status [word]: the row
    has a 4th cell with that status and an anchor with an [href]. *)
Definition emits (word : string) (row : Located) : option IPOListing :=
  st ← row_status row;
  if String.eqb (PyStr.lower st) word then
    nm ← row_name row;
    h ← row_href row;
    Some {| name := nm; url := site_origin +:+ h |}
  else None.

(** the mainboard heading is absent: no level-2 heading of the document
    has a string that contains the title *)
Definition header_absent (soup : Document) : Prop :=
  Forall (fun l => named ["h2"] (element l) = true ->
                   forall t, dot_string (element l) = Some t ->
                             PyStr.contains mainboard_title t = false)
         (located_forest soup).

(** *** The dashboard rows, in the words of the specification *)

(** the hrefs of all anchors of the 1st cell that have one *)
Definition cell_hrefs (row : Located) : list string :=
  match row_cells row !! 0%nat with
  | Some c0 => omap (fun l => attr "href" (element l)) (find_all ["a"] (element c0))
  | None => []
  end.

(** A reference resolved against the site origin: a reference with its
    own scheme stands for itself, one that begins with two slashes takes
    the origin's scheme, one that begins with a slash its scheme and
    host, any other is a path below the origin. *)
Definition resolve_against_origin (href : string) : string :=
  if PyStr.startswith href "http://" || PyStr.startswith href "https://" then href
  else if PyStr.startswith href "//" then "https:" +:+ href
  else if PyStr.startswith href "/" then site_origin +:+ href
  else site_origin +:+ "/" +:+ href.

(** every row of status [word] whose 1st cell contains an anchor with an
    href is in the list, under the cell's trimmed text and an href of
    the cell resolved against the origin *)
Definition listed_as_claimed (word : string) (rows : list Located)
    (listed : list IPOListing) : Prop :=
  forall row, row ∈ rows -> status_is word row -> cell_hrefs row <> [] ->
    exists ipo, ipo ∈ listed
                /\ row_name row = Some (name ipo)
                /\ exists h, h ∈ cell_hrefs row /\ url ipo = resolve_against_origin h.

(** the rows the scrape walks on a page, when it gets that far *)
Definition page_rows (page : Document) : list Located :=
  match find_mainboard_header false (located_forest page) with
  | Return (Some after) =>
      match find_next_table after with
      | Some ipo_table =>
          match Soup.find "tbody" ipo_table with
          | Some tbody => find_all ["tr"] tbody
          | None => []
          end
      | None => []
      end
  | _ => []
  end.

(** *** Detail page sections *)

(** the longest prefix without a level-2 or level-3 heading *)
Fixpoint up_to_next_heading (siblings : list Node) : list Node :=
  match siblings with
  | [] => []
  | n :: rest => if named ["h2"; "h3"] n then [] else n :: up_to_next_heading rest
  end.


(** the text of the siblings of one section, each followed by a space *)
Definition section_text (header : Located) : string :=
  PyStr.join ""
    (map (fun n => get_text_strip " " n +:+ " ")
         (up_to_next_heading (find_next_siblings header))).

(** one kept section: its delimiter line, then its text *)
Definition section_block (header : Located) : string :=
  section_delimiter (element header) +:+ section_text header.


(** *** The detail page, in the words of the specification *)

(** a [div] whose [id] is [v] *)
Definition is_container (v : string) (n : Node) : bool :=
  named ["div"] n && bool_decide (attr "id" n = Some v).

(** [n] is the first [div] with id [v] of the document, in document
    order *)
Definition first_container (v : string) (d : Document) (n : Node) : Prop :=
  exists before l after,
    located_forest d = (before ++ l :: after)%list
    /\ element l = n
    /\ is_container v n = true
    /\ Forall (fun l' => is_container v (element l') = false) before.



(** *** Freshness *)

(** the age of the cache in whole seconds *)
Definition age_seconds (current_time t : datetime) : Z :=
  total_seconds (datetime_sub current_time t).

(** *** Memoization *)

(** the list the handler works on, by type *)
Definition selected_list (ipo_type : string) (c : Cache) : list IPOListing :=
  if String.eqb ipo_type "current" then current_ipos c
  else if String.eqb ipo_type "upcoming" then upcoming_ipos c
  else [].

(** ** Sample documents and worlds *)

Definition text (s : string) : Node := NavigableString PlainString s.
Definition comment (s : string) : Node := NavigableString CommentString s.
Definition tag (nm : string) (cs : list Node) : Node := Tag nm ∅ cs.
Definition link (href : string) (cs : list Node) : Node :=
  Tag "a" {[ "href" := href ]} cs.

Definition sample_row (nm href st : string) : Node :=
  tag "tr" [ tag "td" [link href [text nm]]; tag "td" [text "Oct 1"];
             tag "td" [text "Oct 3"]; tag "td" [text st] ].

(** a dashboard with a current, a closed, an upcoming, a link-less and a
    short row *)
Definition sample_dashboard_page : Document :=
  [ tag "html" [ tag "body" [
      tag "h2" [text "Current IPOs (Mainboard) 2025"];
      tag "table" [ tag "tbody" [
        sample_row " Alpha Ltd IPO " "/ipo/alpha/1/" "Current";
        sample_row "Beta Ltd IPO" "/ipo/beta/2/" "Closed";
        sample_row "Gamma Ltd IPO" "/ipo/gamma/3/" " UPCOMING ";
        tag "tr" [ tag "td" [text "Delta Ltd IPO"]; tag "td" []; tag "td" [];
                   tag "td" [text "Current"] ];
        tag "tr" [ tag "td" [link "/ipo/eps/5/" [text "Epsilon"]]; tag "td" [text "Current"] ]
      ] ] ] ] ].

(** a dashboard whose first row has a named anchor before the link, and
    whose second row links to another site *)
Definition two_anchor_dashboard_page : Document :=
  [ tag "html" [ tag "body" [
      tag "h2" [text "Current IPOs (Mainboard)"];
      tag "table" [ tag "tbody" [
        tag "tr" [ tag "td" [ Tag "a" {[ "name" := "top" ]} [];
                              link "/ipo/alpha/1/" [text "Alpha Ltd IPO"] ];
                   tag "td" [text "Oct 1"]; tag "td" [text "Oct 3"];
                   tag "td" [text "Current"] ];
        sample_row "Beta Ltd IPO" "https://example.com/ipo/beta/2/" "Upcoming"
      ] ] ] ] ].

Definition beta_glued : IPOListing :=
  {| name := "Beta Ltd IPO";
     url := "https://www.chittorgarh.comhttps://example.com/ipo/beta/2/" |}.

(** a dashboard on which the mainboard heading is missing *)
Definition headless_dashboard_page : Document :=
  [ tag "html" [ tag "body" [
      tag "h2" [text "SME IPOs"];
      tag "table" [ tag "tbody" [ sample_row "Alpha Ltd IPO" "/ipo/alpha/1/" "Current" ] ]
    ] ] ].

Definition loaded (page : Document) : Dashboard :=
  {| dashboard_load := Return page; filter_sees_None := false;
     browser_start := None; browser_quit := None |}.

Definition alpha : IPOListing :=
  {| name := "Alpha Ltd IPO"; url := "https://www.chittorgarh.com/ipo/alpha/1/" |}.
Definition gamma : IPOListing :=
  {| name := "Gamma Ltd IPO"; url := "https://www.chittorgarh.com/ipo/gamma/3/" |}.

(** a detail page with a kept section, the message board and a nested
    heading *)
Definition sample_detail_page : Document :=
  [ tag "html" [ tag "body" [
      Tag "div" {[ "id" := "main" ]} [
        tag "h2" [text " Alpha IPO Details "];
        text "loose text";
        tag "p" [text "Issue size "; tag "b" [text " 100 Cr "]];
        tag "p" [text "Price band 95 to 100"];
        tag "h2" [text "Alpha IPO Message Board"];
        tag "p" [text "chatter"];
        tag "h3" [text "Financials"];
        tag "table" [ tag "tr" [ tag "td" [text "Revenue"]; tag "td" [text "12"] ] ]
      ] ] ] ].


(** two pages with a comment inside a heading *)
Definition commented_heading_page : Document :=
  [ Tag "div" {[ "id" := "main" ]} [
      tag "h2" [text "Details"; comment " Message Board below "];
      tag "p" [text "Price 100"] ] ].

Definition split_heading_page : Document :=
  [ Tag "div" {[ "id" := "main" ]} [
      tag "h2" [text "Message"; comment "x"; text " Board"];
      tag "p" [text "chatter"] ] ].

(** that page as the browser hands it over *)
Definition sample_detail_source : PageSource :=
  {| page_text :=
       "<html><body><div id='main'><h2> Alpha IPO Details </h2>loose text"
       +:+ "<p>Issue size <b> 100 Cr </b></p><p>Price band 95 to 100</p>"
       +:+ "<h2>Alpha IPO Message Board</h2><p>chatter</p><h3>Financials</h3>"
       +:+ "<table><tr><td>Revenue</td><td>12</td></tr></table></div></body></html>";
     page_tree := sample_detail_page |}.

(** a page source that is not empty but holds no node: a stray end tag *)
Definition stray_tag_source : PageSource :=
  {| page_text := "</p>"; page_tree := [] |}.

(** one hour, and twenty-five hours, in microseconds *)
Definition hours (n : Z) : Z := n * 3600 * us_per_second.
Definition secs (n : Z) : Z := n * us_per_second.

Definition sample_env (t : datetime) (d : Dashboard) : Env :=
  {| now := t;
     dashboard := d;
     detail_load := fun _ => Return sample_detail_source;
     generate_content := fun _ => Return numbered_text;
     now_stamp := (t + secs 30)%Z |}.

Definition fresh_world (t : datetime) : World :=
  {| cache := {| current_ipos := [alpha]; upcoming_ipos := [gamma];
                 last_updated := Some t; analyses := ∅ |};
     calls := no_calls |}.

Definition initial_world : World := {| cache := empty_cache; calls := no_calls |}.

(** two analyze requests for the first current listing, ten seconds apart,
    on a cache filled at time 0 *)
Definition first_env : Env := sample_env (secs 10) (loaded sample_dashboard_page).
Definition second_env : Env := sample_env (secs 20) (loaded sample_dashboard_page).
Definition first_call : Response * World :=
  analyze_ipo first_env "current" 0 (fresh_world 0).
Definition second_call : Response * World :=
  analyze_ipo second_env "current" 0 (snd first_call).

(** a forced refresh two hours after the cache was filled *)
Definition refresh_env : Env := sample_env (hours 2) (loaded sample_dashboard_page).
Definition refresh_call : Response * World := refresh_ipos refresh_env (fresh_world 0).

(** the world after a request that went through the whole pipeline *)
Definition stored_world (w : World) (key : string) (data : AnalysisRecord) : World :=
  {| cache := {| current_ipos := current_ipos (cache w);
                 upcoming_ipos := upcoming_ipos (cache w);
                 last_updated := last_updated (cache w);
                 analyses := <[key := data]> (analyses (cache w)) |};
     calls := one_summary (one_render (calls w)) |}.

(** a string that does not begin with white space *)
Definition head_ok (s : string) : Prop :=
  match s with
  | EmptyString => True
  | String c _ => PyStr.isspace c = false
  end.

(** a title that some header line of [lines] opens, and that is not empty *)
Definition opened_title (lines : list string) (k : string) : Prop :=
  k <> "" /\ exists line, line ∈ lines
                          /\ is_section_header (PyStr.strip line) = true
                          /\ k = section_title (PyStr.strip line).

(** all keys of the dictionary, and the open title, are such titles *)
Definition keys_opened (lines : list string) (st : ParserState) : Prop :=
  (forall k v, sections st !! k = Some v -> opened_title lines k)
  /\ (forall t, current_section st = Some t -> t <> "" -> opened_title lines t).

(** ** Further sample worlds *)

(** an environment with a free choice of detail pages and model answers *)
Definition env_with (t : datetime) (d : Dashboard)
    (pages : string -> Result PageSource) (llm : string -> Result string) : Env :=
  {| now := t; dashboard := d; detail_load := pages;
     generate_content := llm; now_stamp := (t + secs 30)%Z |}.

(** detail pages that never show their container in time *)
Definition timeout_env : Env :=
  env_with (secs 10) (loaded sample_dashboard_page)
           (fun _ => Raise (TimeoutException "Message: timeout"))
           (fun _ => Return numbered_text).

(** a language model that is out of quota *)
Definition quota_env : Env :=
  env_with (secs 10) (loaded sample_dashboard_page)
           (fun _ => Return sample_detail_source)
           (fun _ => Raise (ApiError "429 quota exceeded")).

(** a dashboard that cannot be scraped *)
Definition headless_env : Env :=
  env_with (hours 2) (loaded headless_dashboard_page)
           (fun _ => Return sample_detail_source)
           (fun _ => Return numbered_text).

(** detail pages whose source is a stray end tag *)
Definition stray_env : Env :=
  env_with (secs 10) (loaded sample_dashboard_page)
           (fun _ => Return stray_tag_source)
           (fun _ => Return numbered_text).

(** a machine on which the browser does not start *)
Definition crashed_env : Env :=
  env_with (hours 2)
           {| dashboard_load := Return sample_dashboard_page;
              filter_sees_None := false;
              browser_start := Some (WebDriverException "chromedriver not found");
              browser_quit := None |}
           (fun _ => Return sample_detail_source)
           (fun _ => Return numbered_text).

(** a record computed earlier for the first current listing, when that
    listing still had another address *)
Definition old_alpha_record : AnalysisRecord :=
  {| a_ipo := {| name := "Alpha Ltd IPO";
                 url := "https://www.chittorgarh.com/ipo/alpha-old/9/" |};
     a_ipo_type := "current";
     a_type_label := "CURRENT";
     a_raw_analysis := "old";
     a_sections := ∅;
     a_analyzed_at := isoformat 5 |}.

Definition memo_world (t : datetime) : World :=
  {| cache := {| current_ipos := [a_ipo old_alpha_record]; upcoming_ipos := [];
                 last_updated := Some t;
                 analyses := <[ipo_key_of "current" 0 alpha := old_alpha_record]> ∅ |};
     calls := no_calls |}.

(** a detail page whose only heading is the message board *)
Definition board_only_page : Document :=
  [ Tag "div" {[ "id" := "main" ]} [
      tag "p" [text "preamble"];
      tag "h2" [text "Message Board"];
      tag "p" [text "chatter"] ] ].

(** [c in s] for one character *)
Fixpoint has_char (c : ascii) (s : string) : bool :=
  match s with
  | EmptyString => false
  | String a s' => Ascii.eqb a c || has_char c s'
  end.

(** * Properties *)

(** ** The section parser *)

(** the string primitives on a few inputs *)
Example strip_example :
  PyStr.strip (" " +:+ PyStr.chr 9 +:+ "Current " +:+ PyStr.nl) = "Current".
Proof. reflexivity. Qed.

Example lower_example : PyStr.lower "UpComing" = "upcoming".
Proof. reflexivity. Qed.

Example split_example :
  PyStr.split "010"%char ("a" +:+ PyStr.nl +:+ PyStr.nl +:+ "b") = ["a"; ""; "b"].
Proof. reflexivity. Qed.

Example section_title_example : section_title "**1. Foo:**" = "Foo".
Proof. reflexivity. Qed.

(** text before the first header is dropped, blank lines too, and a
    repeated title keeps its last body *)
Example parse_analysis_sections_overwrites :
  parse_analysis_sections
    ("intro" +:+ PyStr.nl +:+ "1. A" +:+ PyStr.nl +:+ "x" +:+ PyStr.nl +:+ PyStr.nl
     +:+ "y" +:+ PyStr.nl +:+ "2. A" +:+ PyStr.nl +:+ "z")
  = <["A" := "z"]> ∅.
Proof. vm_compute. reflexivity. Qed.


(** C4: on the emphasis-marked text and on the numbered text the section
    parser returns exactly the mapping Snapshot -> Line A, Verdict -> Line B. *)
Theorem parse_analysis_sections_examples :
  parse_analysis_sections emphasis_text
    = <["Snapshot" := "Line A"]> (<["Verdict" := "Line B"]> ∅)
  /\ parse_analysis_sections numbered_text
    = <["Snapshot" := "Line A"]> (<["Verdict" := "Line B"]> ∅).
Proof. split; vm_compute; reflexivity. Qed.

(** ** The dashboard extractor *)

Lemma find_mainboard_header_absent (b : bool) (els : list Located) :
  Forall (fun l => named ["h2"] (element l) = true ->
                   forall t, dot_string (element l) = Some t ->
                             PyStr.contains mainboard_title t = false) els ->
  find_mainboard_header b els = Return None
  \/ exists e, find_mainboard_header b els = Raise e.
Proof.
  induction 1 as [|l rest Hl _ IH]; simpl; [now left|].
  destruct (named ["h2"] (element l)) eqn:Hh2; [|exact IH].
  destruct (dot_string (element l)) as [t|] eqn:Hs.
  - simpl. rewrite (Hl eq_refl t eq_refl). exact IH.
  - destruct b; [right; eexists; reflexivity | exact IH].
Qed.

(** when the browser starts and quits without an exception, the call
    returns what its [try] block gives *)
Lemma scrape_ipo_dashboard_quiet (d : Dashboard) :
  browser_start d = None -> browser_quit d = None ->
  scrape_ipo_dashboard d = Return (scrape_try d).
Proof. unfold scrape_ipo_dashboard. now intros -> ->. Qed.

(** an exception of the browser's start or quit is the only thing the
    call raises *)
Lemma scrape_ipo_dashboard_raises (d : Dashboard) (e : Exn) :
  scrape_ipo_dashboard d = Raise e <->
  browser_start d = Some e
  \/ (browser_start d = None /\ browser_quit d = Some e).
Proof.
  unfold scrape_ipo_dashboard.
  destruct (browser_start d) as [e1|]; [|destruct (browser_quit d) as [e2|]];
    split; intros H; try discriminate.
  - injection H as ->. now left.
  - destruct H as [[= ->] | [[=] _]]. reflexivity.
  - injection H as ->. now right.
  - destruct H as [[=] | [_ [= ->]]]. reflexivity.
  - destruct H as [[=] | [_ [=]]].
Qed.

(** Without the heading, and likewise without a table after it, the
    scrape hands back the single empty list. *)
Lemma scrape_header_absent (d : Dashboard) (soup : Document) :
  browser_start d = None -> browser_quit d = None ->
  dashboard_load d = Return soup ->
  header_absent soup ->
  scrape_ipo_dashboard d = Return EmptyList.
Proof.
  intros Hstart Hquit Hload Habs.
  rewrite (scrape_ipo_dashboard_quiet d Hstart Hquit). f_equal.
  unfold scrape_try, scrape_body.
  rewrite Hload. simpl.
  destruct (find_mainboard_header_absent (filter_sees_None d) _ Habs) as [-> | [e ->]];
    reflexivity.
Qed.

Lemma scrape_table_absent (d : Dashboard) (soup : Document) (after : list Located) :
  browser_start d = None -> browser_quit d = None ->
  dashboard_load d = Return soup ->
  find_mainboard_header (filter_sees_None d) (located_forest soup) = Return (Some after) ->
  find_next_table after = None ->
  scrape_ipo_dashboard d = Return EmptyList.
Proof.
  intros Hstart Hquit Hload Hh Ht.
  rewrite (scrape_ipo_dashboard_quiet d Hstart Hquit). f_equal.
  unfold scrape_try, scrape_body.
  rewrite Hload. simpl. rewrite Hh. simpl. now rewrite Ht.
Qed.

(** a load that raised ends the same way *)
Lemma scrape_load_raises (d : Dashboard) (e : Exn) :
  browser_start d = None -> browser_quit d = None ->
  dashboard_load d = Raise e -> scrape_ipo_dashboard d = Return EmptyList.
Proof.
  intros Hstart Hquit Hload.
  rewrite (scrape_ipo_dashboard_quiet d Hstart Hquit). f_equal.
  unfold scrape_try, scrape_body. now rewrite Hload.
Qed.

Lemma headless_dashboard_has_no_header : header_absent headless_dashboard_page.
Proof.
  unfold header_absent. vm_compute located_forest.
  repeat constructor; simpl; intros; try discriminate;
    match goal with H : Some _ = Some _ |- _ => inversion H; subst; reflexivity end.
Qed.

(** C1: on a dashboard page without the mainboard heading the scrape does
    not raise, but what it returns is the single empty list of its early
    exit and not a pair of two empty lists; the callers' unpacking of it
    into two names raises a ValueError. *)
Theorem scrape_headless_dashboard_returns_one_list :
  header_absent headless_dashboard_page
  /\ scrape_ipo_dashboard (loaded headless_dashboard_page) = Return EmptyList
  /\ scrape_ipo_dashboard (loaded headless_dashboard_page) <> Return (Lists [] [])
  /\ rbind (scrape_ipo_dashboard (loaded headless_dashboard_page)) unpack_pair
     = Raise (ValueError "not enough values to unpack (expected 2, got 0)").
Proof.
  split; [exact headless_dashboard_has_no_header|].
  rewrite (scrape_header_absent (loaded headless_dashboard_page) headless_dashboard_page
             eq_refl eq_refl eq_refl headless_dashboard_has_no_header).
  repeat split. discriminate.
Qed.

(** *** The row loop *)

Lemma listing_of_cell_row (row : Located) (c0 : Located) :
  row_cells row !! 0%nat = Some c0 ->
  listing_of_cell (element c0)
  = (nm ← row_name row; h ← row_href row;
     Some {| name := nm; url := site_origin +:+ h |}).
Proof.
  intros H0. unfold listing_of_cell, row_name, row_href. rewrite H0. simpl.
  destruct (Soup.find "a" (element c0)) as [a|]; simpl; [|reflexivity].
  destruct (attr "href" a); reflexivity.
Qed.

(** one turn of the loop appends what the row emits, to either list *)
Lemma row_step_emits (cur up : list IPOListing) (row : Located) :
  row_step (cur, up) row
  = ((cur ++ option_list (emits "current" row))%list,
     (up ++ option_list (emits "upcoming" row))%list).
Proof.
  unfold row_step, emits, row_status. fold (row_cells row).
  destruct (Nat.leb_spec 4 (length (row_cells row))) as [Hlen|Hlen].
  - destruct (lookup_lt_is_Some_2 (row_cells row) 3 ltac:(lia)) as [c3 H3].
    destruct (lookup_lt_is_Some_2 (row_cells row) 0 ltac:(lia)) as [c0 H0].
    rewrite H3, H0. simpl.
    rewrite <- (listing_of_cell_row row c0 H0).
    destruct (String.eqb (PyStr.lower (PyStr.strip (get_text (element c3)))) "current")
      eqn:Hc.
    + apply String.eqb_eq in Hc. rewrite Hc. simpl.
      destruct (listing_of_cell (element c0)); simpl; now rewrite ?app_nil_r.
    + destruct (String.eqb (PyStr.lower (PyStr.strip (get_text (element c3)))) "upcoming");
        [destruct (listing_of_cell (element c0))|]; simpl; now rewrite ?app_nil_r.
  - rewrite (lookup_ge_None_2 (row_cells row) 3 ltac:(lia)). simpl.
    now rewrite !app_nil_r.
Qed.

Lemma fold_row_step (rows : list Located) (cur up : list IPOListing) :
  fold_left row_step rows (cur, up)
  = ((cur ++ omap (emits "current") rows)%list,
     (up ++ omap (emits "upcoming") rows)%list).
Proof.
  revert cur up. induction rows as [|row rows IH]; intros cur up; cbn [fold_left].
  - simpl. now rewrite !app_nil_r.
  - rewrite row_step_emits, IH, <- !app_assoc. f_equal; f_equal.
    + change (omap (emits "current") (row :: rows))
        with (match emits "current" row with
              | Some y => y :: omap (emits "current") rows
              | None => omap (emits "current") rows
              end).
      destruct (emits "current" row); reflexivity.
    + change (omap (emits "upcoming") (row :: rows))
        with (match emits "upcoming" row with
              | Some y => y :: omap (emits "upcoming") rows
              | None => omap (emits "upcoming") rows
              end).
      destruct (emits "upcoming" row); reflexivity.
Qed.

Lemma scrape_rows_emits (rows : list Located) :
  scrape_rows rows = (omap (emits "current") rows, omap (emits "upcoming") rows).
Proof. unfold scrape_rows. now rewrite fold_row_step. Qed.

(** what a row emits, read off the row *)
Lemma emits_Some (word : string) (row : Located) (ipo : IPOListing) :
  emits word row = Some ipo <->
  status_is word row
  /\ exists h, row_href row = Some h
               /\ row_name row = Some (name ipo)
               /\ url ipo = site_origin +:+ h.
Proof.
  unfold emits, status_is. split.
  - destruct (row_status row) as [st|]; simpl; [|discriminate].
    destruct (String.eqb_spec (PyStr.lower st) word) as [Hw|]; [|discriminate].
    destruct (row_name row) as [nm|]; simpl; [|discriminate].
    destruct (row_href row) as [h|]; simpl; [|discriminate].
    intros [= <-]. simpl. eauto 10.
  - intros [(st & -> & <-) (h & -> & -> & Hu)]. simpl.
    rewrite String.eqb_refl. simpl. destruct ipo as [n u]; simpl in *. now subst.
Qed.

Lemma emits_None_status (word : string) (row : Located) :
  ~ status_is word row -> emits word row = None.
Proof.
  unfold emits, status_is. intros Hn.
  destruct (row_status row) as [st|]; simpl; [|reflexivity].
  destruct (String.eqb_spec (PyStr.lower st) word) as [Hw|]; [|reflexivity].
  exfalso. eauto.
Qed.

Lemma emits_None_href (word : string) (row : Located) :
  row_href row = None -> emits word row = None.
Proof.
  unfold emits. intros ->.
  destruct (row_status row) as [st|]; simpl; [|reflexivity].
  destruct (String.eqb (PyStr.lower st) word); [|reflexivity].
  destruct (row_name row); reflexivity.
Qed.

(** a row with at least four cells has a status, and only such a row *)
Lemma row_status_four_cells (row : Located) :
  is_Some (row_status row) <-> 4 <= length (row_cells row).
Proof.
  unfold row_status. split.
  - destruct (row_cells row !! 3%nat) eqn:H3; simpl; [|intros [? [=]]].
    intros _. apply lookup_lt_Some in H3. lia.
  - intros Hlen. destruct (lookup_lt_is_Some_2 (row_cells row) 3 ltac:(lia)) as [c3 ->].
    simpl. eauto.
Qed.

(** C3: when the browser session ends well and the page leads to a table
    body, the scrape returns the pair whose first list holds, in row
    order, exactly what the rows with status current emit and whose second
    list holds, in row order, what the rows with status upcoming emit; a
    row emits (its first cell's trimmed text, the site origin immediately
    followed by the href of the first anchor of that cell) when it has
    four cells, that status and a first anchor with an href, and nothing
    under a status it does not have, without an anchor, or when its first
    anchor has no href. *)
Theorem scrape_lists_rows_by_status
    (d : Dashboard) (soup : Document) (after : list Located)
    (ipo_table tbody : Node) :
  browser_start d = None -> browser_quit d = None ->
  dashboard_load d = Return soup ->
  find_mainboard_header (filter_sees_None d) (located_forest soup) = Return (Some after) ->
  find_next_table after = Some ipo_table ->
  Soup.find "tbody" ipo_table = Some tbody ->
  let rows := find_all ["tr"] tbody in
  scrape_ipo_dashboard d
  = Return (Lists (omap (emits "current") rows) (omap (emits "upcoming") rows))
  /\ (forall word row ipo,
        emits word row = Some ipo <->
        (4 <= length (row_cells row) /\ status_is word row)
        /\ exists h, row_href row = Some h
                     /\ row_name row = Some (name ipo)
                     /\ url ipo = site_origin +:+ h)
  /\ (forall row, ~ status_is "current" row -> ~ status_is "upcoming" row ->
        emits "current" row = None /\ emits "upcoming" row = None)
  /\ (forall row, row_href row = None ->
        emits "current" row = None /\ emits "upcoming" row = None).
Proof.
  intros Hstart Hquit Hload Hh Ht Hb rows. repeat split.
  - rewrite (scrape_ipo_dashboard_quiet d Hstart Hquit). f_equal.
    unfold scrape_try, scrape_body.
    rewrite Hload. simpl. rewrite Hh. simpl. rewrite Ht.
    unfold table_rows. rewrite Hb. simpl.
    fold rows. now rewrite scrape_rows_emits.
  - apply row_status_four_cells. apply emits_Some in H as [(st & Hst & _) _]. eauto.
  - now apply emits_Some in H as [? _].
  - now apply emits_Some in H as [_ ?].
  - intros [[_ Hs] Hh']. apply emits_Some. now split.
  - now apply emits_None_status.
  - now apply emits_None_status.
  - now apply emits_None_href.
  - now apply emits_None_href.
Qed.

Lemma scrape_lists_rows_by_status_witness :
  scrape_ipo_dashboard (loaded sample_dashboard_page) = Return (Lists [alpha] [gamma]).
Proof.
  pose (after := default [] (match find_mainboard_header false
                                     (located_forest sample_dashboard_page) with
                             | Return o => o | Raise _ => None end)).
  pose (tbl := default (text "") (find_next_table after)).
  pose (tb := default (text "") (Soup.find "tbody" tbl)).
  destruct (scrape_lists_rows_by_status (loaded sample_dashboard_page)
              sample_dashboard_page after tbl tb) as [H _];
    [reflexivity | reflexivity | reflexivity | vm_compute; reflexivity
    | vm_compute; reflexivity | vm_compute; reflexivity |].
  rewrite H. vm_compute. reflexivity.
Defined.

(** The rows of [two_anchor_dashboard_page] refute the reading in which
    any anchor with an href counts and the href is resolved against the
    origin.  Its first row has status current and, after a named anchor
    without href, an anchor with an href: the scrape lists nothing for
    it.  Its second row has status upcoming and an absolute href: the
    scrape lists the origin glued to that href, which is not what
    resolving the href gives. *)
Lemma scrape_not_listed_as_claimed :
  scrape_ipo_dashboard (loaded two_anchor_dashboard_page)
  = Return (Lists [] [beta_glued])
  /\ ~ listed_as_claimed "current" (page_rows two_anchor_dashboard_page) []
  /\ ~ listed_as_claimed "upcoming" (page_rows two_anchor_dashboard_page) [beta_glued].
Proof.
  split; [vm_compute; reflexivity|].
  pose (row1 := default {| element := text ""; following := [] |}
                        (page_rows two_anchor_dashboard_page !! 0%nat)).
  pose (row2 := default {| element := text ""; following := [] |}
                        (page_rows two_anchor_dashboard_page !! 1%nat)).
  split; intros Hclaim.
  - destruct (Hclaim row1) as (ipo & Hin & _).
    + vm_compute. apply list_elem_of_here.
    + exists "Current". split; vm_compute; reflexivity.
    + vm_compute. discriminate.
    + now apply not_elem_of_nil in Hin.
  - destruct (Hclaim row2) as (ipo & Hin & _ & h & Hh & Hurl).
    + vm_compute. apply list_elem_of_further, list_elem_of_here.
    + exists "Upcoming". split; vm_compute; reflexivity.
    + vm_compute. discriminate.
    + apply list_elem_of_singleton in Hin. subst ipo.
      vm_compute in Hh. apply list_elem_of_singleton in Hh. subst h.
      vm_compute in Hurl. discriminate Hurl.
Qed.

(** ** The detail extractor *)

Section StringAppend.

Lemma append_nil_r (s : string) : s +:+ "" = s.
Proof.
  induction s as [|c s IH]; [reflexivity|].
  change (String c (s +:+ "") = String c s). now rewrite IH.
Qed.

Lemma append_assoc (s1 s2 s3 : string) : (s1 +:+ s2) +:+ s3 = s1 +:+ (s2 +:+ s3).
Proof.
  induction s1 as [|c s1 IH]; [reflexivity|].
  change (String c ((s1 +:+ s2) +:+ s3) = String c (s1 +:+ (s2 +:+ s3))).
  now rewrite IH.
Qed.

(** joining with the empty separator is plain concatenation *)
Lemma join_empty_cons (p : string) (ps : list string) :
  PyStr.join "" (p :: ps) = p +:+ PyStr.join "" ps.
Proof.
  destruct ps as [|q ps]; [symmetry; apply append_nil_r | reflexivity].
Qed.

End StringAppend.

(** the inner loop gathers the siblings up to the next heading *)
Lemma sibling_loop_up_to (siblings : list Node) (content : string) :
  sibling_loop siblings content
  = content +:+ PyStr.join ""
                  (map (fun n => get_text_strip " " n +:+ " ")
                       (up_to_next_heading siblings)).
Proof.
  revert content. induction siblings as [|n rest IH]; intros content;
    cbn [sibling_loop up_to_next_heading].
  - simpl. now rewrite append_nil_r.
  - destruct (named ["h2"; "h3"] n).
    + simpl. now rewrite append_nil_r.
    + rewrite IH. cbn [map]. rewrite join_empty_cons, !append_assoc. reflexivity.
Qed.

(** a heading of the message board leaves the text as it was *)
Lemma header_step_skips (acc : string) (header : Located) :
  PyStr.contains message_board (get_text (element header)) = true ->
  header_step acc header = acc.
Proof. unfold header_step. now intros ->. Qed.

(** any other heading adds its block *)
Lemma header_step_keeps (acc : string) (header : Located) :
  PyStr.contains message_board (get_text (element header)) = false ->
  header_step acc header = acc +:+ section_block header.
Proof.
  unfold header_step, section_block, section_text. intros ->.
  rewrite sibling_loop_up_to. simpl. now rewrite append_assoc.
Qed.

Lemma fold_header_step (headers : list Located) (acc : string) :
  fold_left header_step headers acc
  = acc +:+ PyStr.join ""
              (map section_block
                   (filter (fun h => negb (PyStr.contains message_board
                                             (get_text (element h)))) headers)).
Proof.
  revert acc. induction headers as [|h hs IH]; intros acc; cbn [fold_left].
  - simpl. now rewrite append_nil_r.
  - rewrite IH.
    destruct (PyStr.contains message_board (get_text (element h))) eqn:Hmb.
    + rewrite header_step_skips by assumption.
      rewrite filter_cons_False; [reflexivity|]. now rewrite Hmb.
    + rewrite header_step_keeps by assumption.
      rewrite filter_cons_True by now rewrite Hmb.
      cbn [map]. now rewrite join_empty_cons, append_assoc.
Qed.


Section FirstMatch.

Context {A : Type} (P : A -> bool).

(** the head of a filtered list is the first element that passes *)
Lemma head_filter_first (l : list A) (x : A) :
  head (filter (fun a => P a) l) = Some x <->
  exists l1 l2, l = (l1 ++ x :: l2)%list /\ P x = true
                /\ Forall (fun a => P a = false) l1.
Proof.
  induction l as [|a l IH].
  - split; [discriminate|]. intros (l1 & l2 & Hl & _). now destruct l1.
  - destruct (P a) eqn:Ha.
    + rewrite filter_cons_True by now rewrite Ha. cbn [head]. split.
      * intros [= <-]. exists [], l. repeat split; auto.
      * intros ([|b l1] & l2 & Hl & Hx & Hall); injection Hl as <- _; [reflexivity|].
        apply Forall_cons in Hall as [Hb _]. congruence.
    + rewrite filter_cons_False by now rewrite Ha. rewrite IH. split.
      * intros (l1 & l2 & -> & Hx & Hall). exists (a :: l1), l2.
        repeat split; auto.
      * intros ([|b l1] & l2 & Hl & Hx & Hall); injection Hl as <- Hl.
        -- congruence.
        -- apply Forall_cons in Hall as [_ Hall]. eauto.
Qed.

End FirstMatch.

(** [soup.find('div', id=v)] finds the first container, and only that *)
Lemma find_div_by_id_first (v : string) (d : Document) (n : Node) :
  find_div_by_id v d = Some n <-> first_container v d n.
Proof.
  unfold find_div_by_id, first_container.
  destruct (head (filter _ (located_forest d))) as [l|] eqn:Hhead.
  - apply (head_filter_first (fun l => is_container v (element l))) in Hhead
      as (l1 & l2 & Hl & Hl0 & Hall).
    split.
    + intros [= <-]. exists l1, l, l2. auto.
    + intros (l1' & l' & l2' & Hl' & <- & Hn & Hall').
      assert (Hsame : head (filter (fun a => is_container v (element a))
                                   (located_forest d)) = Some l').
      { apply head_filter_first. eauto. }
      assert (Hl'' : head (filter (fun a => is_container v (element a))
                                  (located_forest d)) = Some l).
      { apply head_filter_first. eauto. }
      rewrite Hsame in Hl''. now injection Hl'' as ->.
  - split; [discriminate|].
    intros (l1' & l' & l2' & Hl' & <- & Hn & Hall').
    assert (Hsame : head (filter (fun a => is_container v (element a))
                                 (located_forest d)) = Some l').
    { apply head_filter_first. eauto. }
    unfold is_container in Hsame. rewrite Hhead in Hsame. discriminate.
Qed.




(** a comment inside a heading is no part of the heading's text: the
    first page keeps its heading, the second skips it *)
Example comments_are_not_heading_text :
  parse_and_aggregate_data commented_heading_page
  = Some ("--- Section: Details ---" +:+ PyStr.nl +:+ "Price 100")
  /\ parse_and_aggregate_data split_heading_page = Some "".
Proof. split; vm_compute; reflexivity. Qed.

(** ** The cache *)

Lemma or_empty_id (xs : list IPOListing) : or_empty xs = xs.
Proof. now destruct xs. Qed.

(** *** The freshness test *)

Lemma seconds_same_day (current_time t : datetime) :
  (0 <= current_time - t < us_per_day)%Z ->
  seconds (datetime_sub current_time t) = ((current_time - t) / us_per_second)%Z.
Proof.
  intros H. unfold datetime_sub, timedelta_of_us. simpl.
  now rewrite Z.mod_small.
Qed.

Lemma needs_fetch_empty (current_time : datetime) (c : Cache) :
  last_updated c = None -> needs_fetch current_time c = true.
Proof. unfold needs_fetch. now intros ->. Qed.

(** up to 3600 whole seconds of age nothing is fetched *)
Lemma needs_fetch_within_hour (current_time t : datetime) (c : Cache) :
  last_updated c = Some t ->
  (0 <= current_time - t < secs 3601)%Z ->
  needs_fetch current_time c = false.
Proof.
  intros Hc H. unfold needs_fetch. rewrite Hc. unfold secs, us_per_second in H.
  rewrite seconds_same_day by (unfold us_per_day, us_per_second; lia).
  apply Z.ltb_ge. unfold us_per_second.
  apply Z.lt_succ_r, Z.div_lt_upper_bound; lia.
Qed.

(** from 3601 seconds on, and for the rest of that day, a fetch is due *)
Lemma needs_fetch_after_hour (current_time t : datetime) (c : Cache) :
  last_updated c = Some t ->
  (secs 3601 <= current_time - t < us_per_day)%Z ->
  needs_fetch current_time c = true.
Proof.
  intros Hc H. unfold needs_fetch. rewrite Hc. unfold secs, us_per_second in H.
  rewrite seconds_same_day by (unfold us_per_day, us_per_second in *; lia).
  apply Z.ltb_lt. unfold us_per_second.
  apply Z.lt_le_trans with 3601%Z; [lia|].
  apply Z.div_le_lower_bound; lia.
Qed.

(** the test only sees the seconds within the day: whole days of age
    are dropped *)
Lemma needs_fetch_forgets_days (current_time t : datetime) (k : Z) (c c' : Cache) :
  last_updated c = Some t ->
  last_updated c' = Some (t - k * us_per_day)%Z ->
  needs_fetch current_time c' = needs_fetch current_time c.
Proof.
  intros Hc Hc'. unfold needs_fetch. rewrite Hc, Hc'.
  unfold datetime_sub, timedelta_of_us. simpl.
  replace (current_time - (t - k * us_per_day))%Z
    with (current_time - t + k * us_per_day)%Z by lia.
  now rewrite Z.mod_add by (unfold us_per_day, us_per_second; lia).
Qed.

(** *** The list read *)

Lemma get_cached_ipos_fresh (env : Env) (w : World) :
  needs_fetch (now env) (cache w) = false ->
  get_cached_ipos env w
  = (Return (current_ipos (cache w), upcoming_ipos (cache w)), w).
Proof.
  intros H. unfold get_cached_ipos, bind, get_cache, ret. now rewrite H.
Qed.

Lemma get_cached_ipos_fetch (env : Env) (w : World) (cur up : list IPOListing) :
  needs_fetch (now env) (cache w) = true ->
  scrape_ipo_dashboard (dashboard env) = Return (Lists cur up) ->
  get_cached_ipos env w
  = (Return (cur, up),
     {| cache := {| current_ipos := cur; upcoming_ipos := up;
                    last_updated := Some (now env);
                    analyses := analyses (cache w) |};
        calls := one_scrape (calls w) |}).
Proof.
  intros H Hs.
  unfold get_cached_ipos, bind, get_cache, put_cache, count, lift, ret.
  rewrite H, Hs. simpl. now rewrite !or_empty_id.
Qed.

Lemma get_cached_ipos_fetch_fails (env : Env) (w : World) :
  needs_fetch (now env) (cache w) = true ->
  scrape_ipo_dashboard (dashboard env) = Return EmptyList ->
  get_cached_ipos env w
  = (Raise (ValueError "not enough values to unpack (expected 2, got 0)"),
     {| cache := cache w; calls := one_scrape (calls w) |}).
Proof.
  intros H Hs.
  unfold get_cached_ipos, bind, get_cache, put_cache, count, lift, ret.
  now rewrite H, Hs.
Qed.

(** an exception of the scrape call goes through the list read *)
Lemma get_cached_ipos_scrape_raises (env : Env) (w : World) (e : Exn) :
  needs_fetch (now env) (cache w) = true ->
  scrape_ipo_dashboard (dashboard env) = Raise e ->
  get_cached_ipos env w
  = (Raise e, {| cache := cache w; calls := one_scrape (calls w) |}).
Proof.
  intros H Hs.
  unfold get_cached_ipos, bind, get_cache, put_cache, count, lift, ret.
  now rewrite H, Hs.
Qed.

(** the four ways a list read can go *)
Lemma get_cached_ipos_cases (env : Env) (w : World) :
  (needs_fetch (now env) (cache w) = false
   /\ get_cached_ipos env w
      = (Return (current_ipos (cache w), upcoming_ipos (cache w)), w))
  \/ (exists cur up,
        needs_fetch (now env) (cache w) = true
        /\ scrape_ipo_dashboard (dashboard env) = Return (Lists cur up)
        /\ get_cached_ipos env w
           = (Return (cur, up),
              {| cache := {| current_ipos := cur; upcoming_ipos := up;
                             last_updated := Some (now env);
                             analyses := analyses (cache w) |};
                 calls := one_scrape (calls w) |}))
  \/ (needs_fetch (now env) (cache w) = true
      /\ scrape_ipo_dashboard (dashboard env) = Return EmptyList
      /\ get_cached_ipos env w
         = (Raise (ValueError "not enough values to unpack (expected 2, got 0)"),
            {| cache := cache w; calls := one_scrape (calls w) |}))
  \/ (exists e,
        needs_fetch (now env) (cache w) = true
        /\ scrape_ipo_dashboard (dashboard env) = Raise e
        /\ get_cached_ipos env w
           = (Raise e, {| cache := cache w; calls := one_scrape (calls w) |})).
Proof.
  destruct (needs_fetch (now env) (cache w)) eqn:H.
  - right. destruct (scrape_ipo_dashboard (dashboard env)) as [[|cur up]|e] eqn:Hs.
    + right. left. auto using get_cached_ipos_fetch_fails.
    + left. exists cur, up. auto using get_cached_ipos_fetch.
    + right. right. exists e. auto using get_cached_ipos_scrape_raises.
  - left. auto using get_cached_ipos_fresh.
Qed.

(** a list read leaves the memoized analyses, the renders and the
    summaries alone, and scrapes at most once *)
Lemma get_cached_ipos_frame (env : Env) (w w' : World)
    (r : Result (list IPOListing * list IPOListing)) :
  get_cached_ipos env w = (r, w') ->
  analyses (cache w') = analyses (cache w)
  /\ renders (calls w') = renders (calls w)
  /\ summaries (calls w') = summaries (calls w)
  /\ scrapes (calls w') <= S (scrapes (calls w)).
Proof.
  destruct (get_cached_ipos_cases env w)
    as [[_ ->] | [(cur & up & _ & _ & ->) | [(_ & _ & ->) | (e & _ & _ & ->)]]];
    intros [= <- <-]; simpl; auto.
Qed.

(** C2: with a timestamp twenty-five hours old the list read fetches
    nothing: the age is 90000 seconds, yet the test reads 3600 and the
    cache, the timestamp and the number of scrapes stay as they were. *)
Theorem get_cached_ipos_skips_fetch_after_25_hours
    (t : datetime) (cur up : list IPOListing)
    (an : gmap string AnalysisRecord) (n : Calls) (d : Dashboard)
    (pages : string -> Result PageSource) (llm : string -> Result string)
    (stamp : datetime) :
  let w := {| cache := {| current_ipos := cur; upcoming_ipos := up;
                          last_updated := Some t; analyses := an |};
              calls := n |} in
  let env := {| now := (t + hours 25)%Z; dashboard := d; detail_load := pages;
                generate_content := llm; now_stamp := stamp |} in
  age_seconds (now env) t = 90000%Z
  /\ seconds (datetime_sub (now env) t) = 3600%Z
  /\ needs_fetch (now env) (cache w) = false
  /\ get_cached_ipos env w = (Return (cur, up), w).
Proof.
  intros w env.
  assert (Hs : seconds (datetime_sub (now env) t) = 3600%Z).
  { unfold env, datetime_sub. simpl.
    replace (t + hours 25 - t)%Z with (hours 25) by lia. reflexivity. }
  assert (Hn : needs_fetch (now env) (cache w) = false).
  { unfold needs_fetch. simpl last_updated. cbv iota beta. now rewrite Hs. }
  repeat split; try assumption.
  - unfold age_seconds, env, datetime_sub. simpl now.
    replace (t + hours 25 - t)%Z with (hours 25) by lia. reflexivity.
  - now rewrite get_cached_ipos_fresh.
Qed.

(** C10: a list read that returns leaves a timestamp in the cache, and a
    response of status 200 from the list endpoint carries a timestamp. *)
Theorem get_cached_ipos_returns_with_timestamp (env : Env) (w : World) :
  (forall r w', get_cached_ipos env w = (Return r, w') ->
     is_Some (last_updated (cache w')))
  /\ (forall resp w', get_ipos env w = (resp, w') -> status resp = 200 ->
        exists cur up t,
          last_updated (cache w') = Some t
          /\ body resp = IposBody cur up (length cur) (length up)
                                  (length cur + length up) (Some (isoformat t))).
Proof.
  assert (Hread : forall r w', get_cached_ipos env w = (Return r, w') ->
                               is_Some (last_updated (cache w'))).
  { intros r w'.
    destruct (get_cached_ipos_cases env w)
      as [[Hf ->] | [(cur & up & _ & _ & ->) | [(_ & _ & ->) | (e & _ & _ & ->)]]];
      intros [= <- <-]; simpl; eauto.
    unfold needs_fetch in Hf. destruct (last_updated (cache w)); [eauto | discriminate]. }
  split; [exact Hread|].
  intros resp w'. unfold get_ipos, handle, bind.
  destruct (get_cached_ipos env w) as [[[cur up]|e] w1] eqn:Hg.
  - destruct (Hread _ _ eq_refl) as [t Ht].
    unfold get_cache, respond, ret. intros [= <- <-] _. simpl.
    exists cur, up, t. now rewrite Ht.
  - intros [= <- <-]. discriminate.
Qed.

Lemma get_cached_ipos_returns_with_timestamp_witness :
  is_Some (last_updated
             (cache {| cache := {| current_ipos := [alpha]; upcoming_ipos := [gamma];
                                   last_updated := Some 0%Z; analyses := ∅ |};
                       calls := one_scrape no_calls |})).
Proof.
  refine (proj1 (get_cached_ipos_returns_with_timestamp
                   (sample_env 0%Z (loaded sample_dashboard_page)) initial_world)
                ([alpha], [gamma]) _ _).
  vm_compute. reflexivity.
Defined.

(** ** The summarizer *)

(** C9: for every input text and every behaviour of the language model
    the summarization step returns a string and raises nothing; when the
    model call raised, that string is the error sentence followed by the
    exception's message, otherwise it is the model's text, stripped. *)
Theorem get_ipo_analysis_with_gemini_never_raises
    (env : Env) (ipo_data_text : string) (w : World) :
  exists s,
    get_ipo_analysis_with_gemini env ipo_data_text w
    = (Return s, {| cache := cache w; calls := one_summary (calls w) |})
    /\ (forall e, generate_content env (prompt ipo_data_text) = Raise e ->
                  s = api_error_prefix +:+ str_of_exn e)
    /\ (forall t, generate_content env (prompt ipo_data_text) = Return t ->
                  s = PyStr.strip t).
Proof.
  unfold get_ipo_analysis_with_gemini, bind, count, ret. simpl.
  destruct (generate_content env (prompt ipo_data_text)) as [t|e];
    eexists; (split; [reflexivity|]); split; intros ? [= <-]; reflexivity.
Qed.

(** the summarizer's outcome, as an equation *)
Lemma get_ipo_analysis_with_gemini_eq (env : Env) (ipo_data_text : string) (w : World) :
  get_ipo_analysis_with_gemini env ipo_data_text w
  = (Return match generate_content env (prompt ipo_data_text) with
            | Return t => PyStr.strip t
            | Raise e => api_error_prefix +:+ str_of_exn e
            end,
     {| cache := cache w; calls := one_summary (calls w) |}).
Proof.
  unfold get_ipo_analysis_with_gemini, bind, count, ret. simpl.
  now destruct (generate_content env (prompt ipo_data_text)).
Qed.

(** ** The analyze handler *)

(** once the lists are read, the handler goes on in the world the read
    left *)
Lemma analyze_ipo_after_read (env : Env) (ipo_type : string) (ipo_index : nat)
    (w w1 : World) (cur up : list IPOListing) :
  get_cached_ipos env w = (Return (cur, up), w1) ->
  analyze_ipo env ipo_type ipo_index w
  = handle (if String.eqb ipo_type "current" then
              analyze_selected env ipo_type ipo_index cur "CURRENT"
            else if String.eqb ipo_type "upcoming" then
              analyze_selected env ipo_type ipo_index up "UPCOMING"
            else respond 400 (ErrorBody invalid_type_message)) w1.
Proof.
  intros H. unfold analyze_ipo, handle, bind. now rewrite H.
Qed.

(** when the list read raises, the handler answers 500 *)
Lemma analyze_ipo_read_raises (env : Env) (ipo_type : string) (ipo_index : nat)
    (w w1 : World) (e : Exn) :
  get_cached_ipos env w = (Raise e, w1) ->
  analyze_ipo env ipo_type ipo_index w
  = ({| status := 500; body := ErrorBody (str_of_exn e) |}, w1).
Proof.
  intros H. unfold analyze_ipo, handle, bind. now rewrite H.
Qed.

(** an unknown type is refused with 400 whenever the list read returns *)
Lemma analyze_ipo_unknown_type (env : Env) (ipo_type : string) (ipo_index : nat)
    (w w1 : World) (r : list IPOListing * list IPOListing) :
  ipo_type <> "current" -> ipo_type <> "upcoming" ->
  get_cached_ipos env w = (Return r, w1) ->
  analyze_ipo env ipo_type ipo_index w
  = ({| status := 400; body := ErrorBody invalid_type_message |}, w1).
Proof.
  intros Hc Hu H. destruct r as [cur up].
  rewrite (analyze_ipo_after_read _ _ _ _ _ _ _ H).
  apply String.eqb_neq in Hc, Hu. now rewrite Hc, Hu.
Qed.

(** C6: with the initial (empty, stale) cache and a dashboard page that
    lacks the mainboard heading, an analyze request of type bogus is
    answered with status 500 and the unpacking error, not with 400. *)
Theorem analyze_bogus_on_stale_cache_answers_500 (t : datetime) :
  let env := sample_env t (loaded headless_dashboard_page) in
  needs_fetch (now env) (cache initial_world) = true
  /\ analyze_ipo env "bogus" 0 initial_world
     = ({| status := 500;
           body := ErrorBody "not enough values to unpack (expected 2, got 0)" |},
        {| cache := empty_cache; calls := one_scrape no_calls |}).
Proof.
  intros env. split; [reflexivity|].
  apply (analyze_ipo_read_raises env "bogus" 0 initial_world _
           (ValueError "not enough values to unpack (expected 2, got 0)")).
  apply (get_cached_ipos_fetch_fails env initial_world); [reflexivity|].
  apply (scrape_header_absent _ headless_dashboard_page);
    [reflexivity | reflexivity | reflexivity | exact headless_dashboard_has_no_header].
Qed.

(** the render's outcome, as an equation *)
Lemma get_page_source_with_selenium_eq (env : Env) (page_url : string) (w : World) :
  get_page_source_with_selenium env page_url w
  = (match detail_load env page_url with
     | Return page_source => Return (Some page_source)
     | Raise (TimeoutException _) => Return None
     | Raise e => Raise e
     end,
     {| cache := cache w; calls := one_render (calls w) |}).
Proof.
  unfold get_page_source_with_selenium, bind, count, ret, raise. simpl.
  destruct (detail_load env page_url) as [page|[]]; reflexivity.
Qed.

(** closes the cases in which the handler does not answer 200 *)
Ltac refuse :=
  intros [= <- <-]; simpl; repeat split; auto;
  try (right; repeat split; auto;
       let resp := fresh "resp" in
       intros resp; first [discriminate | intros [= <-]; discriminate]).

(** Everything [analyze_selected] can do.  It never touches the lists or
    the timestamp and never scrapes.  Either it answers 200 with a
    record that is then stored under the key: the record that was stored
    there already, in an unchanged world, or a record just computed with
    one render and one summary; or it does not answer 200, and then no
    summary was made and nothing was stored. *)
Lemma analyze_selected_inv (env : Env) (ipo_type : string) (ipo_index : nat)
    (ipos : list IPOListing) (type_label : string)
    (w w' : World) (r : Result Response) :
  analyze_selected env ipo_type ipo_index ipos type_label w = (r, w') ->
  current_ipos (cache w') = current_ipos (cache w)
  /\ upcoming_ipos (cache w') = upcoming_ipos (cache w)
  /\ last_updated (cache w') = last_updated (cache w)
  /\ scrapes (calls w') = scrapes (calls w)
  /\ ((exists ipo data,
         r = Return {| status := 200; body := AnalysisBody data |}
         /\ ipos !! ipo_index = Some ipo
         /\ analyses (cache w') !! ipo_key_of ipo_type ipo_index ipo = Some data
         /\ ((analyses (cache w) !! ipo_key_of ipo_type ipo_index ipo = Some data
              /\ w' = w)
             \/ (analyses (cache w) !! ipo_key_of ipo_type ipo_index ipo = None
                 /\ renders (calls w') = S (renders (calls w))
                 /\ summaries (calls w') = S (summaries (calls w))
                 /\ a_analyzed_at data = isoformat (now_stamp env)
                 /\ analyses (cache w')
                    = <[ipo_key_of ipo_type ipo_index ipo := data]>
                        (analyses (cache w)))))
      \/ ((forall resp, r = Return resp -> status resp <> 200)
          /\ summaries (calls w') = summaries (calls w)
          /\ analyses (cache w') = analyses (cache w))).
Proof.
  unfold analyze_selected.
  destruct (length ipos <=? ipo_index)%nat; [refuse|].
  destruct (ipos !! ipo_index) as [ipo|] eqn:Hi; [|refuse].
  unfold bind at 1. unfold get_cache at 1. cbv iota beta.
  destruct (analyses (cache w) !! ipo_key_of ipo_type ipo_index ipo)
    as [stored|] eqn:Hk.
  { intros [= <- <-]. repeat split; auto.
    left. exists ipo, stored. repeat split; auto. }
  unfold bind at 1. rewrite get_page_source_with_selenium_eq.
  destruct (detail_load env (url ipo)) as [page|e]; cbv iota beta.
  - destruct (PyStr.truthy (page_text page)); cbn [negb]; [|refuse].
    destruct (parse_and_aggregate_data (page_tree page)) as [[|c s]|];
      [refuse| |refuse].
    unfold bind at 1. rewrite get_ipo_analysis_with_gemini_eq. cbv iota beta.
    unfold bind, get_cache, put_cache, respond, ret. simpl.
    intros [= <- <-]. simpl. repeat split; auto.
    left. eexists ipo, _. split; [reflexivity|]. split; [reflexivity|].
    split; [apply lookup_insert_eq|]. right. repeat split; auto.
  - destruct e; cbv iota beta; refuse.
Qed.

(** a record stored under the key is handed back as it is *)
Lemma analyze_selected_hit (env : Env) (ipo_type : string) (ipo_index : nat)
    (ipos : list IPOListing) (type_label : string) (w : World)
    (ipo : IPOListing) (stored : AnalysisRecord) :
  ipos !! ipo_index = Some ipo ->
  analyses (cache w) !! ipo_key_of ipo_type ipo_index ipo = Some stored ->
  analyze_selected env ipo_type ipo_index ipos type_label w
  = (Return {| status := 200; body := AnalysisBody stored |}, w).
Proof.
  intros Hi Hk. unfold analyze_selected.
  apply lookup_lt_Some in Hi as Hlt.
  destruct (Nat.leb_spec (length ipos) ipo_index) as [Hle|_]; [lia|].
  rewrite Hi. unfold bind, get_cache. cbv iota beta. now rewrite Hk.
Qed.

(** the same case analysis behind the handler's outermost [except] *)
Lemma handle_analyze_selected (env : Env) (ipo_type : string) (ipo_index : nat)
    (ipos : list IPOListing) (type_label : string)
    (w w' : World) (resp : Response) :
  handle (analyze_selected env ipo_type ipo_index ipos type_label) w = (resp, w') ->
  current_ipos (cache w') = current_ipos (cache w)
  /\ upcoming_ipos (cache w') = upcoming_ipos (cache w)
  /\ last_updated (cache w') = last_updated (cache w)
  /\ scrapes (calls w') = scrapes (calls w)
  /\ ((exists ipo data,
         resp = {| status := 200; body := AnalysisBody data |}
         /\ ipos !! ipo_index = Some ipo
         /\ analyses (cache w') !! ipo_key_of ipo_type ipo_index ipo = Some data
         /\ ((analyses (cache w) !! ipo_key_of ipo_type ipo_index ipo = Some data
              /\ w' = w)
             \/ (analyses (cache w) !! ipo_key_of ipo_type ipo_index ipo = None
                 /\ renders (calls w') = S (renders (calls w))
                 /\ summaries (calls w') = S (summaries (calls w))
                 /\ a_analyzed_at data = isoformat (now_stamp env))))
      \/ (status resp <> 200
          /\ summaries (calls w') = summaries (calls w)
          /\ analyses (cache w') = analyses (cache w))).
Proof.
  unfold handle.
  destruct (analyze_selected env ipo_type ipo_index ipos type_label w)
    as [[r0|e] w0] eqn:H;
    apply analyze_selected_inv in H as (Hc & Hu & Ht & Hs & Hcases);
    intros [= <- <-]; (repeat (split; [assumption|])).
  - destruct Hcases as [(ipo & data & [= ->] & Hi & Hk & Hhow) | (Hn & Hsum & Han)].
    + left. exists ipo, data. repeat (split; [done|]).
      destruct Hhow as [?|(? & ? & ? & ? & _)]; [now left | right; auto].
    + right. split; [now apply Hn | auto].
  - destruct Hcases as [(ipo & data & [=] & _) | (_ & Hsum & Han)].
    right. split; [discriminate | auto].
Qed.

(** C5: with the cache fresh at both requests, two analyze calls in a row
    for the same type and index summarize at most once in total; when the
    first call answers 200 its record is stored under the key of (type,
    index, name), and the second call answers with the identical response
    and leaves the world, the counters of renders and summaries included,
    untouched. *)
Theorem analyze_ipo_twice_summarizes_once
    (env1 env2 : Env) (ipo_type : string) (ipo_index : nat)
    (w w1 w2 : World) (r1 r2 : Response) :
  needs_fetch (now env1) (cache w) = false ->
  analyze_ipo env1 ipo_type ipo_index w = (r1, w1) ->
  needs_fetch (now env2) (cache w1) = false ->
  analyze_ipo env2 ipo_type ipo_index w1 = (r2, w2) ->
  summaries (calls w2) <= S (summaries (calls w))
  /\ (status r1 = 200 ->
      exists ipo data,
        selected_list ipo_type (cache w) !! ipo_index = Some ipo
        /\ r1 = {| status := 200; body := AnalysisBody data |}
        /\ analyses (cache w1) !! ipo_key_of ipo_type ipo_index ipo = Some data
        /\ r2 = r1 /\ w2 = w1).
Proof.
  intros Hf1 H1 Hf2 H2.
  rewrite (analyze_ipo_after_read _ _ _ _ _ _ _ (get_cached_ipos_fresh _ _ Hf1)) in H1.
  rewrite (analyze_ipo_after_read _ _ _ _ _ _ _ (get_cached_ipos_fresh _ _ Hf2)) in H2.
  unfold selected_list.
  assert (Hsel : forall ipos label,
    handle (analyze_selected env1 ipo_type ipo_index ipos label) w = (r1, w1) ->
    (current_ipos (cache w1) = current_ipos (cache w) ->
     upcoming_ipos (cache w1) = upcoming_ipos (cache w) ->
     handle (analyze_selected env2 ipo_type ipo_index ipos label) w1 = (r2, w2)) ->
    summaries (calls w2) <= S (summaries (calls w))
    /\ (status r1 = 200 ->
        exists ipo data,
          ipos !! ipo_index = Some ipo
          /\ r1 = {| status := 200; body := AnalysisBody data |}
          /\ analyses (cache w1) !! ipo_key_of ipo_type ipo_index ipo = Some data
          /\ r2 = r1 /\ w2 = w1)).
  { intros ipos label Ha Hb.
    apply handle_analyze_selected in Ha
      as (Hc & Hu & _ & _ & [(ipo & data & -> & Hi & Hk & Hhow) | (Hn & Hsum & _)]).
    - specialize (Hb Hc Hu). unfold handle in Hb.
      rewrite (analyze_selected_hit _ _ _ _ _ _ ipo data Hi Hk) in Hb.
      injection Hb as <- <-. split.
      + destruct Hhow as [[_ ->] | (_ & _ & -> & _)]; lia.
      + intros _. exists ipo, data. auto.
    - specialize (Hb Hc Hu).
      apply handle_analyze_selected in Hb as (_ & _ & _ & _ & Hsecond).
      split; [|intros Hst; now destruct Hn].
      destruct Hsecond
        as [(ipo & data & _ & _ & _ & [[_ ->] | (_ & _ & -> & _)]) | (_ & -> & _)];
        lia. }
  revert H1 H2.
  destruct (String.eqb ipo_type "current").
  { intros H1 H2. apply (Hsel _ _ H1). now intros <- _. }
  destruct (String.eqb ipo_type "upcoming").
  { intros H1 H2. apply (Hsel _ _ H1). now intros _ <-. }
  unfold handle, respond, ret.
  intros [= <- <-] [= <- <-].
  split; [lia | discriminate].
Qed.

Lemma analyze_ipo_twice_summarizes_once_witness :
  summaries (calls (snd second_call)) <= 1
  /\ status (fst first_call) = 200
  /\ fst second_call = fst first_call
  /\ snd second_call = snd first_call.
Proof.
  destruct (analyze_ipo_twice_summarizes_once first_env second_env "current" 0
              (fresh_world 0) (snd first_call) (snd second_call)
              (fst first_call) (fst second_call))
    as [Hle Hsame].
  - vm_compute. reflexivity.
  - unfold first_call. now destruct (analyze_ipo first_env "current" 0 (fresh_world 0)).
  - vm_compute. reflexivity.
  - unfold second_call.
    now destruct (analyze_ipo second_env "current" 0 (snd first_call)).
  - assert (Hst : status (fst first_call) = 200) by (vm_compute; reflexivity).
    destruct (Hsame Hst) as (_ & _ & _ & _ & _ & ? & ?). now repeat split.
Defined.

(** ** The forced refresh *)

(** What a forced refresh does in every case, and what it does when its
    scrape delivers: it empties the memoized analyses (every key is
    absent afterwards) and scrapes exactly once; when that scrape
    delivers its two lists the cache holds exactly them with the time of
    the refresh as timestamp, so that it counts as fresh for the hour that
    follows; and an analyze request after the refresh that answers 200
    has rendered and summarized anew and carries a record stamped by that
    request. *)
Lemma refresh_ipos_clears_and_rescrapes
    (env : Env) (w w1 : World) (r : Response) :
  refresh_ipos env w = (r, w1) ->
  analyses (cache w1) = ∅
  /\ (forall key, analyses (cache w1) !! key = None)
  /\ scrapes (calls w1) = S (scrapes (calls w))
  /\ (forall cur up,
        scrape_ipo_dashboard (dashboard env) = Return (Lists cur up) ->
        cache w1 = {| current_ipos := cur; upcoming_ipos := up;
                      last_updated := Some (now env); analyses := ∅ |}
        /\ r = {| status := 200;
                  body := RefreshBody "IPO data refreshed successfully"
                            (length cur) (length up) (length cur + length up) |}
        /\ (forall t, (0 <= t - now env < secs 3601)%Z ->
                      needs_fetch t (cache w1) = false))
  /\ (forall env2 ipo_type ipo_index r2 w2,
        analyze_ipo env2 ipo_type ipo_index w1 = (r2, w2) ->
        status r2 = 200 ->
        exists data,
          body r2 = AnalysisBody data
          /\ a_analyzed_at data = isoformat (now_stamp env2)
          /\ renders (calls w2) = S (renders (calls w1))
          /\ summaries (calls w2) = S (summaries (calls w1))).
Proof.
  intros Href.
  set (w0 := {| cache := empty_cache; calls := calls w |}).
  assert (Hrun : refresh_ipos env w
                 = handle (do ' (cur, up) <- get_cached_ipos env;
                           respond 200 (RefreshBody "IPO data refreshed successfully"
                                          (length cur) (length up)
                                          (length cur + length up))) w0)
    by reflexivity.
  rewrite Hrun in Href. clear Hrun. unfold handle, bind in Href.
  assert (Hfacts :
    analyses (cache w1) = ∅
    /\ scrapes (calls w1) = S (scrapes (calls w))
    /\ (forall cur up,
          scrape_ipo_dashboard (dashboard env) = Return (Lists cur up) ->
          cache w1 = {| current_ipos := cur; upcoming_ipos := up;
                        last_updated := Some (now env); analyses := ∅ |}
          /\ r = {| status := 200;
                    body := RefreshBody "IPO data refreshed successfully"
                              (length cur) (length up) (length cur + length up) |})).
  { destruct (get_cached_ipos_cases env w0)
      as [[Hf _] | [(cur & up & _ & Hs & Hg) | [(_ & Hs & Hg) | (e & _ & Hs & Hg)]]].
    - discriminate Hf.
    - rewrite Hg in Href. unfold respond, ret in Href.
      injection Href as <- <-. simpl.
      split; [reflexivity|]. split; [reflexivity|].
      intros cur' up' Hs'. rewrite Hs in Hs'. injection Hs' as <- <-.
      split; reflexivity.
    - rewrite Hg in Href. injection Href as <- <-. simpl.
      split; [reflexivity|]. split; [reflexivity|].
      intros cur' up' Hs'. rewrite Hs in Hs'. discriminate.
    - rewrite Hg in Href. injection Href as <- <-. simpl.
      split; [reflexivity|]. split; [reflexivity|].
      intros cur' up' Hs'. rewrite Hs in Hs'. discriminate. }
  destruct Hfacts as (Han & Hsc & Hlists).
  split; [exact Han|]. split; [intros key; rewrite Han; apply lookup_empty|].
  split; [exact Hsc|]. split.
  - intros cur up Hs. destruct (Hlists cur up Hs) as [Hc Hr].
    repeat split; auto.
    intros t Ht. apply (needs_fetch_within_hour t (now env)); [now rewrite Hc | exact Ht].
  - intros env2 ipo_type ipo_index r2 w2 Ha Hst.
    destruct (get_cached_ipos env2 w1) as [[[cur up]|e] w1'] eqn:Hg.
    + destruct (get_cached_ipos_frame _ _ _ _ Hg) as (Han' & Hre & Hsu & _).
      rewrite (analyze_ipo_after_read _ _ _ _ _ _ _ Hg) in Ha.
      assert (Hsel : forall ipos label,
        handle (analyze_selected env2 ipo_type ipo_index ipos label) w1' = (r2, w2) ->
        exists data,
          body r2 = AnalysisBody data
          /\ a_analyzed_at data = isoformat (now_stamp env2)
          /\ renders (calls w2) = S (renders (calls w1))
          /\ summaries (calls w2) = S (summaries (calls w1))).
      { intros ipos label Hh.
        apply handle_analyze_selected in Hh
          as (_ & _ & _ & _ & [(ipo & data & -> & _ & _ & Hhow) | (Hn & _)]);
          [|now destruct Hn].
        destruct Hhow as [[Hhit _] | (_ & Hr2 & Hs2 & Hat)].
        - rewrite Han', Han, lookup_empty in Hhit. discriminate.
        - exists data. simpl. rewrite Hr2, Hs2, Hre, Hsu. auto. }
      revert Ha.
      destruct (String.eqb ipo_type "current"); [apply Hsel|].
      destruct (String.eqb ipo_type "upcoming"); [apply Hsel|].
      unfold handle, respond, ret. intros [= <- <-]. discriminate.
    + rewrite (analyze_ipo_read_raises _ _ _ _ _ _ Hg) in Ha.
      injection Ha as <- <-. discriminate.
Qed.

Lemma refresh_ipos_clears_and_rescrapes_witness :
  cache (snd refresh_call)
  = {| current_ipos := [alpha]; upcoming_ipos := [gamma];
       last_updated := Some (hours 2); analyses := ∅ |}
  /\ scrapes (calls (snd refresh_call)) = 1.
Proof.
  destruct (refresh_ipos_clears_and_rescrapes refresh_env (fresh_world 0)
              (snd refresh_call) (fst refresh_call))
    as (_ & _ & Hsc & Hlists & _).
  - unfold refresh_call. now destruct (refresh_ipos refresh_env (fresh_world 0)).
  - destruct (Hlists [alpha] [gamma]) as (Hc & _ & _); [vm_compute; reflexivity|].
    split; [exact Hc | exact Hsc].
Defined.

(** C7: a forced refresh made while the dashboard page lacks the
    mainboard heading answers 500 with the unpacking error and leaves the
    cache empty and without a timestamp: whatever the time of the next
    request, the cache is not fresh but due for a fetch, and the lists
    held before the refresh are gone with the analyses. *)
Theorem refresh_ipos_on_headless_dashboard_leaves_stale
    (t : datetime) (w : World) :
  let env := sample_env t (loaded headless_dashboard_page) in
  refresh_ipos env w
  = ({| status := 500;
        body := ErrorBody "not enough values to unpack (expected 2, got 0)" |},
     {| cache := empty_cache; calls := one_scrape (calls w) |})
  /\ last_updated (cache (snd (refresh_ipos env w))) = None
  /\ forall t', needs_fetch t' (cache (snd (refresh_ipos env w))) = true.
Proof.
  intros env.
  assert (Hrun : refresh_ipos env w
                 = ({| status := 500;
                       body := ErrorBody
                                 "not enough values to unpack (expected 2, got 0)" |},
                    {| cache := empty_cache; calls := one_scrape (calls w) |})).
  { unfold refresh_ipos, handle, bind at 1, put_cache. cbv iota beta.
    unfold bind.
    rewrite (get_cached_ipos_fetch_fails env
               {| cache := empty_cache; calls := calls w |} eq_refl);
      [reflexivity|].
    apply (scrape_header_absent _ headless_dashboard_page);
      [reflexivity | reflexivity | reflexivity
      | exact headless_dashboard_has_no_header]. }
  rewrite Hrun. repeat split.
Qed.

(** * Further properties of the handlers and the pipeline *)

(** ** The analyze handler, path by path *)

(** with a valid type the handler continues on the list of that type *)
Lemma analyze_ipo_valid_type (env : Env) (ipo_type : string) (ipo_index : nat)
    (w w1 : World) (cur up : list IPOListing) :
  ipo_type = "current" \/ ipo_type = "upcoming" ->
  get_cached_ipos env w = (Return (cur, up), w1) ->
  analyze_ipo env ipo_type ipo_index w
  = handle (analyze_selected env ipo_type ipo_index
              (if String.eqb ipo_type "current" then cur else up)
              (if String.eqb ipo_type "current" then "CURRENT" else "UPCOMING")) w1.
Proof.
  intros Hty Hg. rewrite (analyze_ipo_after_read _ _ _ _ _ _ _ Hg).
  destruct Hty as [-> | ->]; reflexivity.
Qed.

(** what the handler does, in terms of the list read and of
    [analyze_selected] *)
Lemma analyze_ipo_cases (env : Env) (ipo_type : string) (ipo_index : nat)
    (w w' : World) (r : Response) :
  analyze_ipo env ipo_type ipo_index w = (r, w') ->
  (exists e, get_cached_ipos env w = (Raise e, w')
             /\ r = {| status := 500; body := ErrorBody (str_of_exn e) |})
  \/ (exists cur up w1,
        get_cached_ipos env w = (Return (cur, up), w1)
        /\ ((r = {| status := 400; body := ErrorBody invalid_type_message |}
             /\ w' = w1)
            \/ (exists ipos label,
                  handle (analyze_selected env ipo_type ipo_index ipos label) w1
                  = (r, w')))).
Proof.
  intros Ha.
  destruct (get_cached_ipos env w) as [[[cur up]|e] w1] eqn:Hg.
  - right. exists cur, up, w1. split; [reflexivity|].
    rewrite (analyze_ipo_after_read _ _ _ _ _ _ _ Hg) in Ha. revert Ha.
    destruct (String.eqb ipo_type "current"); [right; eauto|].
    destruct (String.eqb ipo_type "upcoming"); [right; eauto|].
    unfold handle, respond, ret. intros [= <- <-]. now left.
  - left. exists e. rewrite (analyze_ipo_read_raises _ _ _ _ _ _ Hg) in Ha.
    injection Ha as <- <-. now split.
Qed.

(** a request whose key is not memoized, whose page loads and parses to
    a non-empty text, answers 200 with the record built from the
    summarizer's string and stores it *)
Lemma analyze_selected_miss (env : Env) (ipo_type : string) (ipo_index : nat)
    (ipos : list IPOListing) (type_label : string) (w : World)
    (ipo : IPOListing) (page : PageSource) (c : ascii) (agg : string) :
  ipos !! ipo_index = Some ipo ->
  analyses (cache w) !! ipo_key_of ipo_type ipo_index ipo = None ->
  detail_load env (url ipo) = Return page ->
  page_text page <> "" ->
  parse_and_aggregate_data (page_tree page) = Some (String c agg) ->
  let analysis_text :=
    match generate_content env (prompt (String c agg)) with
    | Return t => PyStr.strip t
    | Raise e => api_error_prefix +:+ str_of_exn e
    end in
  let data := {| a_ipo := ipo; a_ipo_type := ipo_type; a_type_label := type_label;
                 a_raw_analysis := analysis_text;
                 a_sections := parse_analysis_sections analysis_text;
                 a_analyzed_at := isoformat (now_stamp env) |} in
  analyze_selected env ipo_type ipo_index ipos type_label w
  = (Return {| status := 200; body := AnalysisBody data |},
     stored_world w (ipo_key_of ipo_type ipo_index ipo) data).
Proof.
  intros Hi Hk Hl Htext Hp. cbv zeta. unfold analyze_selected.
  apply lookup_lt_Some in Hi as Hlt.
  destruct (Nat.leb_spec (length ipos) ipo_index) as [Hle|_]; [lia|].
  rewrite Hi. unfold bind at 1. unfold get_cache at 1. cbv iota beta. rewrite Hk.
  unfold bind at 1. rewrite get_page_source_with_selenium_eq, Hl. cbv iota beta.
  destruct (page_text page) as [|a txt]; [now destruct Htext|].
  cbn [PyStr.truthy negb].
  rewrite Hp. unfold bind at 1. rewrite get_ipo_analysis_with_gemini_eq. cbv iota beta.
  reflexivity.
Qed.

(** X1: with a valid type and an index at or beyond the length of that
    type's list, the handler answers 400 with the message that names the
    type, once the list read has returned; nothing is rendered,
    summarized or stored. *)
Theorem analyze_ipo_index_out_of_range
    (env : Env) (ipo_type : string) (ipo_index : nat)
    (w w1 : World) (cur up : list IPOListing) :
  ipo_type = "current" \/ ipo_type = "upcoming" ->
  get_cached_ipos env w = (Return (cur, up), w1) ->
  length (if String.eqb ipo_type "current" then cur else up) <= ipo_index ->
  analyze_ipo env ipo_type ipo_index w
  = ({| status := 400;
        body := ErrorBody ("IPO index out of range for " +:+ ipo_type +:+ " IPOs") |},
     w1).
Proof.
  intros Hty Hg Hlen. rewrite (analyze_ipo_valid_type _ _ _ _ _ _ _ Hty Hg).
  unfold handle, analyze_selected.
  destruct (Nat.leb_spec (length (if String.eqb ipo_type "current" then cur else up))
              ipo_index) as [_|Hlt]; [reflexivity | lia].
Qed.

Lemma analyze_ipo_index_out_of_range_witness :
  analyze_ipo first_env "upcoming" 1 (fresh_world 0)
  = ({| status := 400; body := ErrorBody "IPO index out of range for upcoming IPOs" |},
     fresh_world 0).
Proof.
  apply (analyze_ipo_index_out_of_range first_env "upcoming" 1
           (fresh_world 0) (fresh_world 0) [alpha] [gamma]).
  - now right.
  - vm_compute. reflexivity.
  - simpl. lia.
Defined.

(** X2: an analyze request that does not answer 200 has called the
    summarizer not at all and has left the memoized analyses exactly as
    they were: failures are not memoized. *)
Theorem analyze_ipo_failure_stores_nothing
    (env : Env) (ipo_type : string) (ipo_index : nat)
    (w w' : World) (r : Response) :
  analyze_ipo env ipo_type ipo_index w = (r, w') ->
  status r <> 200 ->
  analyses (cache w') = analyses (cache w)
  /\ summaries (calls w') = summaries (calls w).
Proof.
  intros Ha Hst.
  destruct (analyze_ipo_cases _ _ _ _ _ _ Ha)
    as [(e & Hg & _) | (cur & up & w1 & Hg & [[_ ->] | (ipos & label & Hh)])];
    destruct (get_cached_ipos_frame _ _ _ _ Hg) as (Han & _ & Hsu & _); auto.
  apply handle_analyze_selected in Hh
    as (_ & _ & _ & _ & [(ipo & data & -> & _) | (_ & Hsu' & Han')]).
  - now destruct Hst.
  - split; congruence.
Qed.

Lemma analyze_ipo_failure_stores_nothing_witness :
  status (fst (analyze_ipo timeout_env "current" 0 (fresh_world 0))) = 500
  /\ analyses (cache (snd (analyze_ipo timeout_env "current" 0 (fresh_world 0)))) = ∅
  /\ summaries (calls (snd (analyze_ipo timeout_env "current" 0 (fresh_world 0)))) = 0.
Proof.
  split; [vm_compute; reflexivity|].
  apply (analyze_ipo_failure_stores_nothing timeout_env "current" 0 (fresh_world 0)
           _ (fst (analyze_ipo timeout_env "current" 0 (fresh_world 0)))).
  - now destruct (analyze_ipo timeout_env "current" 0 (fresh_world 0)).
  - vm_compute. discriminate.
Defined.

(** [analyze_selected] only ever adds under a key that had no entry *)
Lemma analyze_selected_keeps_stored (env : Env) (ipo_type : string) (ipo_index : nat)
    (ipos : list IPOListing) (type_label : string)
    (w w' : World) (r : Result Response) (key : string) (rec : AnalysisRecord) :
  analyze_selected env ipo_type ipo_index ipos type_label w = (r, w') ->
  analyses (cache w) !! key = Some rec ->
  analyses (cache w') !! key = Some rec.
Proof.
  intros Ha Hk.
  apply analyze_selected_inv in Ha
    as (_ & _ & _ & _ & [(ipo & data & _ & _ & _ & Hhow) | (_ & _ & ->)]);
    [|assumption].
  destruct Hhow as [[_ ->] | (Hnone & _ & _ & _ & ->)]; [assumption|].
  rewrite lookup_insert_ne; [assumption|]. intros <-. congruence.
Qed.

(** X3: neither the list endpoint nor the analyze endpoint removes or
    replaces a memoized analysis: a record stored under a key before the
    request is stored under it, unchanged, after the request. *)
Theorem stored_analyses_persist
    (env : Env) (ipo_type : string) (ipo_index : nat)
    (w : World) (key : string) (rec : AnalysisRecord) :
  analyses (cache w) !! key = Some rec ->
  analyses (cache (snd (get_ipos env w))) !! key = Some rec
  /\ analyses (cache (snd (analyze_ipo env ipo_type ipo_index w))) !! key = Some rec.
Proof.
  intros Hk. split.
  - unfold get_ipos, handle, bind.
    destruct (get_cached_ipos env w) as [[[cur up]|e] w1] eqn:Hg;
      destruct (get_cached_ipos_frame _ _ _ _ Hg) as (Han & _); simpl;
      now rewrite Han.
  - destruct (analyze_ipo env ipo_type ipo_index w) as [r w'] eqn:Ha. simpl.
    destruct (analyze_ipo_cases _ _ _ _ _ _ Ha)
      as [(e & Hg & _) | (cur & up & w1 & Hg & [[_ ->] | (ipos & label & Hh)])];
      destruct (get_cached_ipos_frame _ _ _ _ Hg) as (Han & _);
      try (now rewrite Han).
    unfold handle in Hh.
    destruct (analyze_selected env ipo_type ipo_index ipos label w1)
      as [[r0|e0] w0] eqn:Hs; injection Hh as <- <-;
      apply (analyze_selected_keeps_stored _ _ _ _ _ _ _ _ key rec Hs);
      now rewrite Han.
Qed.

Lemma stored_analyses_persist_witness :
  analyses (cache (snd (analyze_ipo first_env "current" 0 (memo_world 0))))
    !! ipo_key_of "current" 0 alpha = Some old_alpha_record.
Proof.
  apply (stored_analyses_persist first_env "current" 0 (memo_world 0)).
  vm_compute. reflexivity.
Defined.

(** X4: for a listed IPO whose analysis is not memoized, the handler
    renders the detail page once and reports the stage that failed: a
    timed-out page or an empty page source is a 500 with the retrieval
    message, any other exception of the browser a 500 with that
    exception's message, a non-empty page source whose tree has no
    container or no section text a 500 with the parsing message; in none
    of these cases is the summarizer called or anything stored. *)
Theorem analyze_ipo_pipeline_failures
    (env : Env) (ipo_type : string) (ipo_index : nat)
    (w w1 : World) (cur up : list IPOListing) (ipo : IPOListing) :
  ipo_type = "current" \/ ipo_type = "upcoming" ->
  get_cached_ipos env w = (Return (cur, up), w1) ->
  (if String.eqb ipo_type "current" then cur else up) !! ipo_index = Some ipo ->
  analyses (cache w1) !! ipo_key_of ipo_type ipo_index ipo = None ->
  let rendered := {| cache := cache w1; calls := one_render (calls w1) |} in
  let answer := fun msg => ({| status := 500; body := ErrorBody msg |}, rendered) in
  (forall m, detail_load env (url ipo) = Raise (TimeoutException m) ->
     analyze_ipo env ipo_type ipo_index w
     = answer "Could not retrieve IPO details page")
  /\ (forall page, detail_load env (url ipo) = Return page ->
        page_text page = "" ->
        analyze_ipo env ipo_type ipo_index w
        = answer "Could not retrieve IPO details page")
  /\ (forall e, detail_load env (url ipo) = Raise e ->
        (forall m, e <> TimeoutException m) ->
        analyze_ipo env ipo_type ipo_index w = answer (str_of_exn e))
  /\ (forall page, detail_load env (url ipo) = Return page ->
        page_text page <> "" ->
        parse_and_aggregate_data (page_tree page) = None
        \/ parse_and_aggregate_data (page_tree page) = Some "" ->
        analyze_ipo env ipo_type ipo_index w
        = answer "Could not parse IPO data from the page").
Proof.
  intros Hty Hg Hi Hk rendered answer.
  apply lookup_lt_Some in Hi as Hlt.
  assert (Hleb : (length (if String.eqb ipo_type "current" then cur else up)
                  <=? ipo_index)%nat = false) by (apply Nat.leb_gt; exact Hlt).
  split; [|split; [|split]]; intros;
    rewrite (analyze_ipo_valid_type _ _ _ _ _ _ _ Hty Hg);
    unfold handle, analyze_selected; rewrite Hleb, Hi;
    unfold bind at 1; unfold get_cache at 1; cbv iota beta; rewrite Hk;
    unfold bind at 1; rewrite get_page_source_with_selenium_eq;
    match goal with H : detail_load _ _ = _ |- _ => rewrite H end.
  - reflexivity.
  - cbv iota beta.
    match goal with H : page_text _ = "" |- _ => rewrite H end. reflexivity.
  - destruct e; try reflexivity.
    match goal with H : forall m, _ <> _ |- _ => now destruct (H msg) end.
  - cbv iota beta. destruct (page_text page) as [|a txt]; [congruence|].
    cbn [PyStr.truthy negb].
    match goal with H : _ \/ _ |- _ => destruct H as [-> | ->] end; reflexivity.
Qed.

Lemma analyze_ipo_pipeline_failures_witness :
  analyze_ipo timeout_env "current" 0 (fresh_world 0)
  = ({| status := 500; body := ErrorBody "Could not retrieve IPO details page" |},
     {| cache := cache (fresh_world 0); calls := one_render no_calls |})
  /\ analyze_ipo stray_env "current" 0 (fresh_world 0)
     = ({| status := 500; body := ErrorBody "Could not parse IPO data from the page" |},
        {| cache := cache (fresh_world 0); calls := one_render no_calls |}).
Proof.
  split.
  - refine (proj1 (analyze_ipo_pipeline_failures timeout_env "current" 0
                     (fresh_world 0) (fresh_world 0) [alpha] [gamma] alpha
                     _ _ _ _) "Message: timeout" _).
    + now left.
    + vm_compute. reflexivity.
    + reflexivity.
    + vm_compute. reflexivity.
    + reflexivity.
  - refine (proj2 (proj2 (proj2
             (analyze_ipo_pipeline_failures stray_env "current" 0
                (fresh_world 0) (fresh_world 0) [alpha] [gamma] alpha
                _ _ _ _))) stray_tag_source _ _ _).
    + now left.
    + vm_compute. reflexivity.
    + reflexivity.
    + vm_compute. reflexivity.
    + reflexivity.
    + discriminate.
    + left. reflexivity.
Defined.

(** X5: when the page loads and parses but the language model call
    raises, the handler still answers 200: the record's raw analysis is
    the error sentence with the exception's message, and the record is
    memoized under the key like a real analysis. *)
Theorem analyze_ipo_memoizes_llm_failure
    (env : Env) (ipo_type : string) (ipo_index : nat)
    (w w1 : World) (cur up : list IPOListing) (ipo : IPOListing)
    (page : PageSource) (agg : string) (e : Exn) :
  ipo_type = "current" \/ ipo_type = "upcoming" ->
  get_cached_ipos env w = (Return (cur, up), w1) ->
  (if String.eqb ipo_type "current" then cur else up) !! ipo_index = Some ipo ->
  analyses (cache w1) !! ipo_key_of ipo_type ipo_index ipo = None ->
  detail_load env (url ipo) = Return page -> page_text page <> "" ->
  parse_and_aggregate_data (page_tree page) = Some agg -> agg <> "" ->
  generate_content env (prompt agg) = Raise e ->
  exists data w',
    analyze_ipo env ipo_type ipo_index w
    = ({| status := 200; body := AnalysisBody data |}, w')
    /\ a_raw_analysis data = api_error_prefix +:+ str_of_exn e
    /\ a_sections data = parse_analysis_sections (api_error_prefix +:+ str_of_exn e)
    /\ analyses (cache w') !! ipo_key_of ipo_type ipo_index ipo = Some data
    /\ summaries (calls w') = S (summaries (calls w1)).
Proof.
  intros Hty Hg Hi Hk Hl Hpage Hp Hagg He.
  destruct agg as [|c agg]; [now destruct Hagg|].
  rewrite (analyze_ipo_valid_type _ _ _ _ _ _ _ Hty Hg). unfold handle.
  rewrite (analyze_selected_miss _ _ _ _ _ _ ipo page c agg Hi Hk Hl Hpage Hp).
  rewrite He. eexists _, _. split; [reflexivity|]. simpl.
  repeat split. apply lookup_insert_eq.
Qed.

Lemma analyze_ipo_memoizes_llm_failure_witness :
  exists data w',
    analyze_ipo quota_env "current" 0 (fresh_world 0)
    = ({| status := 200; body := AnalysisBody data |}, w')
    /\ a_raw_analysis data
       = "An error occurred while communicating with the Google AI API: 429 quota exceeded"
    /\ analyses (cache w') !! ipo_key_of "current" 0 alpha = Some data.
Proof.
  destruct (analyze_ipo_memoizes_llm_failure quota_env "current" 0
              (fresh_world 0) (fresh_world 0) [alpha] [gamma] alpha
              sample_detail_source
              (default "" (parse_and_aggregate_data sample_detail_page))
              (ApiError "429 quota exceeded"))
    as (data & w' & Ha & Hraw & _ & Hst & _).
  - now left.
  - vm_compute. reflexivity.
  - reflexivity.
  - vm_compute. reflexivity.
  - reflexivity.
  - discriminate.
  - vm_compute. reflexivity.
  - vm_compute. discriminate.
  - reflexivity.
  - exists data, w'. auto.
Defined.

(** X6: the key is built from type, index and name only.  When the hourly
    re-scrape brings a listing with the same name at the same index, a
    record memoized before is served again as it is, without a render or a
    summary, whatever address the listing has now. *)
Theorem analyze_ipo_serves_memo_across_rescrape
    (env : Env) (ipo_type : string) (ipo_index : nat) (w : World)
    (cur up : list IPOListing) (ipo : IPOListing) (rec : AnalysisRecord) :
  ipo_type = "current" \/ ipo_type = "upcoming" ->
  needs_fetch (now env) (cache w) = true ->
  scrape_ipo_dashboard (dashboard env) = Return (Lists cur up) ->
  (if String.eqb ipo_type "current" then cur else up) !! ipo_index = Some ipo ->
  analyses (cache w) !! ipo_key_of ipo_type ipo_index ipo = Some rec ->
  analyze_ipo env ipo_type ipo_index w
  = ({| status := 200; body := AnalysisBody rec |},
     {| cache := {| current_ipos := cur; upcoming_ipos := up;
                    last_updated := Some (now env);
                    analyses := analyses (cache w) |};
        calls := one_scrape (calls w) |}).
Proof.
  intros Hty Hf Hs Hi Hk.
  rewrite (analyze_ipo_valid_type _ _ _ _ _ _ _ Hty
             (get_cached_ipos_fetch _ _ _ _ Hf Hs)).
  unfold handle.
  set (w1 := {| cache := {| current_ipos := cur; upcoming_ipos := up;
                            last_updated := Some (now env);
                            analyses := analyses (cache w) |};
                calls := one_scrape (calls w) |}).
  now rewrite (analyze_selected_hit env ipo_type ipo_index _ _ w1 ipo rec Hi Hk).
Qed.

Lemma analyze_ipo_serves_memo_across_rescrape_witness :
  fst (analyze_ipo refresh_env "current" 0 (memo_world 0))
  = {| status := 200; body := AnalysisBody old_alpha_record |}
  /\ url (a_ipo old_alpha_record) <> url alpha.
Proof.
  split; [|discriminate].
  rewrite (analyze_ipo_serves_memo_across_rescrape refresh_env "current" 0
             (memo_world 0) [alpha] [gamma] alpha old_alpha_record).
  - reflexivity.
  - now left.
  - vm_compute. reflexivity.
  - vm_compute. reflexivity.
  - reflexivity.
  - vm_compute. reflexivity.
Defined.

(** ** The list endpoint and the refresh endpoint *)

(** X7: the list endpoint answers in one of three ways: 200 with exactly
    the two lists and the timestamp the cache holds after the request
    (and, when the cache was fresh, without changing anything); or 500
    with the unpacking message, which happens exactly when a fetch was due
    and the scrape came back with the single empty list; or 500 with the
    message of the exception that the scrape call raised, which is an
    exception of starting or of quitting the browser.  In both 500 cases
    the cache is as before. *)
Theorem get_ipos_answers (env : Env) (w w' : World) (r : Response) :
  get_ipos env w = (r, w') ->
  (r = {| status := 200;
          body := IposBody (current_ipos (cache w')) (upcoming_ipos (cache w'))
                    (length (current_ipos (cache w')))
                    (length (upcoming_ipos (cache w')))
                    (length (current_ipos (cache w'))
                     + length (upcoming_ipos (cache w')))
                    (isoformat <$> last_updated (cache w')) |}
   /\ (needs_fetch (now env) (cache w) = false -> w' = w)
   /\ (needs_fetch (now env) (cache w) = true ->
       scrape_ipo_dashboard (dashboard env)
       = Return (Lists (current_ipos (cache w')) (upcoming_ipos (cache w')))))
  \/ (r = {| status := 500;
             body := ErrorBody "not enough values to unpack (expected 2, got 0)" |}
      /\ needs_fetch (now env) (cache w) = true
      /\ scrape_ipo_dashboard (dashboard env) = Return EmptyList
      /\ cache w' = cache w)
  \/ (exists e,
        r = {| status := 500; body := ErrorBody (str_of_exn e) |}
        /\ needs_fetch (now env) (cache w) = true
        /\ scrape_ipo_dashboard (dashboard env) = Raise e
        /\ (browser_start (dashboard env) = Some e
            \/ browser_quit (dashboard env) = Some e)
        /\ cache w' = cache w).
Proof.
  unfold get_ipos, handle, bind.
  destruct (get_cached_ipos_cases env w)
    as [[Hf ->] | [(cur & up & Hf & Hs & ->) | [(Hf & Hs & ->) | (e & Hf & Hs & ->)]]];
    unfold get_cache, respond, ret; intros [= <- <-]; simpl.
  - left. split; [reflexivity|]. split; [reflexivity | congruence].
  - left. split; [reflexivity|]. split; [congruence | now intros _].
  - right. left. auto.
  - right. right. exists e. repeat split; auto.
    apply scrape_ipo_dashboard_raises in Hs as [? | [_ ?]]; auto.
Qed.

Lemma get_ipos_answers_witness :
  fst (get_ipos crashed_env initial_world)
  = {| status := 500; body := ErrorBody "chromedriver not found" |}.
Proof.
  destruct (get_ipos_answers crashed_env initial_world
              (snd (get_ipos crashed_env initial_world))
              (fst (get_ipos crashed_env initial_world)))
    as [(_ & _ & Hs) | [(_ & _ & Hs & _) | (e & Hr & _ & Hs & _)]].
  - now destruct (get_ipos crashed_env initial_world).
  - specialize (Hs eq_refl). vm_compute in Hs. discriminate Hs.
  - vm_compute in Hs. discriminate Hs.
  - vm_compute in Hs. injection Hs as <-. exact Hr.
Defined.

(** X8: when the scrape of a forced refresh comes back with the single
    empty list, the refresh answers 500 and leaves the cache wiped: the
    lists, the timestamp and every memoized analysis held before are
    gone. *)
Theorem refresh_ipos_failed_scrape_wipes_cache (env : Env) (w : World) :
  scrape_ipo_dashboard (dashboard env) = Return EmptyList ->
  refresh_ipos env w
  = ({| status := 500;
        body := ErrorBody "not enough values to unpack (expected 2, got 0)" |},
     {| cache := empty_cache; calls := one_scrape (calls w) |}).
Proof.
  intros Hs. unfold refresh_ipos, handle, bind at 1, put_cache. cbv iota beta.
  unfold bind.
  now rewrite (get_cached_ipos_fetch_fails env
                 {| cache := empty_cache; calls := calls w |} eq_refl Hs).
Qed.

Lemma refresh_ipos_failed_scrape_wipes_cache_witness :
  cache (snd (refresh_ipos headless_env (memo_world 0))) = empty_cache.
Proof.
  rewrite (refresh_ipos_failed_scrape_wipes_cache headless_env (memo_world 0)).
  - reflexivity.
  - vm_compute. reflexivity.
Defined.

(** X9: after a list read that fetched, every list read made within the
    next 3600 seconds returns the fetched lists from the cache and does
    not scrape, whatever the dashboard shows by then. *)
Theorem get_cached_ipos_serves_after_fetch
    (env1 env2 : Env) (w : World) (cur up : list IPOListing) :
  needs_fetch (now env1) (cache w) = true ->
  scrape_ipo_dashboard (dashboard env1) = Return (Lists cur up) ->
  (0 <= now env2 - now env1 < secs 3601)%Z ->
  let w1 := snd (get_cached_ipos env1 w) in
  get_cached_ipos env2 w1 = (Return (cur, up), w1).
Proof.
  intros Hf Hs Ht w1. unfold w1.
  rewrite (get_cached_ipos_fetch _ _ _ _ Hf Hs). simpl.
  rewrite get_cached_ipos_fresh; [reflexivity|].
  now apply (needs_fetch_within_hour _ (now env1)).
Qed.

Lemma get_cached_ipos_serves_after_fetch_witness :
  get_cached_ipos headless_env
    (snd (get_cached_ipos (sample_env (hours 1) (loaded sample_dashboard_page))
            initial_world))
  = (Return ([alpha], [gamma]),
     snd (get_cached_ipos (sample_env (hours 1) (loaded sample_dashboard_page))
            initial_world)).
Proof.
  apply (get_cached_ipos_serves_after_fetch
           (sample_env (hours 1) (loaded sample_dashboard_page)) headless_env
           initial_world [alpha] [gamma]).
  - reflexivity.
  - vm_compute. reflexivity.
  - vm_compute. split; [discriminate | reflexivity].
Defined.

(** ** The freshness test, for every age *)

(** X10: the freshness test depends on the time of day of the age only.
    With the age split into whole days and a rest below one day, a fetch
    is due exactly when the rest is at least 3601 seconds; whole days of
    age, and a timestamp that lies ahead of the clock, do not change
    that. *)
Theorem needs_fetch_reads_rest_of_day
    (current_time t : datetime) (k r : Z) (c : Cache) :
  last_updated c = Some t ->
  (current_time - t = k * us_per_day + r)%Z ->
  (0 <= r < us_per_day)%Z ->
  needs_fetch current_time c = (secs 3601 <=? r)%Z.
Proof.
  intros Hc Hage Hr. unfold needs_fetch. rewrite Hc.
  unfold datetime_sub, timedelta_of_us. simpl seconds.
  rewrite Hage.
  replace (k * us_per_day + r)%Z with (r + k * us_per_day)%Z by lia.
  rewrite Z.mod_add by (unfold us_per_day, us_per_second; lia).
  rewrite Z.mod_small by exact Hr.
  unfold secs, us_per_second in *.
  destruct (Z.leb_spec (3601 * 1000000) r) as [Hle|Hlt].
  - apply Z.ltb_lt. apply Z.lt_le_trans with 3601%Z; [lia|].
    apply Z.div_le_lower_bound; lia.
  - apply Z.ltb_ge. apply Z.lt_succ_r, Z.div_lt_upper_bound; lia.
Qed.

Lemma needs_fetch_reads_rest_of_day_witness :
  needs_fetch (hours 49) (cache (fresh_world 0)) = false
  /\ needs_fetch 0 (cache (fresh_world (secs 5))) = true.
Proof.
  split.
  - rewrite (needs_fetch_reads_rest_of_day (hours 49) 0 2 (hours 1)
               (cache (fresh_world 0)));
      [reflexivity | reflexivity | reflexivity | split; [discriminate | reflexivity]].
  - rewrite (needs_fetch_reads_rest_of_day 0 (secs 5) (-1) (us_per_day - secs 5)
               (cache (fresh_world (secs 5))));
      [reflexivity | reflexivity | reflexivity | split; [discriminate | reflexivity]].
Defined.

(** ** The listings a scrape returns *)

Section Strip.

Lemma lstrip_head_ok (s : string) : head_ok (PyStr.lstrip s).
Proof.
  induction s as [|c s IH]; simpl; [exact I|].
  destruct (PyStr.isspace c) eqn:Hc; [exact IH | exact Hc].
Qed.

Lemma lstrip_id (s : string) : head_ok s -> PyStr.lstrip s = s.
Proof. destruct s as [|c s]; simpl; [reflexivity | now intros ->]. Qed.

Lemma rstrip_head_ok (s : string) : head_ok s -> head_ok (PyStr.rstrip s).
Proof.
  destruct s as [|c s]; simpl; [exact id|]. intros Hc.
  destruct (PyStr.rstrip s); [rewrite Hc|]; exact Hc.
Qed.

Lemma rstrip_idem (s : string) : PyStr.rstrip (PyStr.rstrip s) = PyStr.rstrip s.
Proof.
  induction s as [|c s IH]; [reflexivity|].
  cbn [PyStr.rstrip]. destruct (PyStr.rstrip s) as [|a r] eqn:Hr.
  - destruct (PyStr.isspace c) eqn:Hc; [reflexivity|].
    cbn [PyStr.rstrip]. now rewrite Hc.
  - cbn [PyStr.rstrip] in *. now rewrite IH.
Qed.

(** stripping twice is stripping once *)
Lemma strip_idem (s : string) : PyStr.strip (PyStr.strip s) = PyStr.strip s.
Proof.
  unfold PyStr.strip.
  rewrite (lstrip_id (PyStr.rstrip (PyStr.lstrip s)))
    by apply rstrip_head_ok, lstrip_head_ok.
  apply rstrip_idem.
Qed.

Lemma startswith_append (p s : string) : PyStr.startswith (p +:+ s) p = true.
Proof.
  induction p as [|c p IH]; [now destruct s|].
  change (PyStr.startswith (String c (p +:+ s)) (String c p) = true).
  cbn [PyStr.startswith]. now rewrite Ascii.eqb_refl.
Qed.

End Strip.

(** a scrape that returns its pair has walked the rows of a table body *)
Lemma scrape_lists_inv (d : Dashboard) (cur up : list IPOListing) :
  scrape_ipo_dashboard d = Return (Lists cur up) ->
  exists soup after ipo_table tbody,
    dashboard_load d = Return soup
    /\ find_mainboard_header (filter_sees_None d) (located_forest soup)
       = Return (Some after)
    /\ find_next_table after = Some ipo_table
    /\ Soup.find "tbody" ipo_table = Some tbody
    /\ cur = omap (emits "current") (find_all ["tr"] tbody)
    /\ up = omap (emits "upcoming") (find_all ["tr"] tbody).
Proof.
  unfold scrape_ipo_dashboard.
  destruct (browser_start d); [discriminate|].
  destruct (browser_quit d); [discriminate|].
  intros [= Htry]. revert Htry. unfold scrape_try, scrape_body.
  destruct (dashboard_load d) as [soup|e] eqn:Hload; simpl; [|discriminate].
  destruct (find_mainboard_header (filter_sees_None d) (located_forest soup))
    as [[after|]|e] eqn:Hh; simpl; try discriminate.
  destruct (find_next_table after) as [ipo_table|] eqn:Ht; [|discriminate].
  unfold table_rows.
  destruct (Soup.find "tbody" ipo_table) as [tbody|] eqn:Hb; simpl; [|discriminate].
  rewrite scrape_rows_emits. intros [= <- <-].
  exists soup, after, ipo_table, tbody. repeat split; assumption || reflexivity.
Qed.

(** X11: every listing a scrape returns, in either list, has an address
    that begins with the site origin and a name without white space at
    its ends. *)
Theorem scrape_listings_well_formed
    (d : Dashboard) (cur up : list IPOListing) (ipo : IPOListing) :
  scrape_ipo_dashboard d = Return (Lists cur up) ->
  ipo ∈ cur \/ ipo ∈ up ->
  PyStr.startswith (url ipo) site_origin = true
  /\ PyStr.strip (name ipo) = name ipo.
Proof.
  intros Hs Hin.
  destruct (scrape_lists_inv _ _ _ Hs)
    as (soup & after & tbl & tbody & _ & _ & _ & _ & -> & ->).
  assert (Hrow : exists word row, emits word row = Some ipo).
  { destruct Hin as [Hin|Hin]; apply list_elem_of_omap in Hin as (row & _ & He); eauto. }
  destruct Hrow as (word & row & He).
  apply emits_Some in He as (_ & h & _ & Hn & ->).
  split; [apply startswith_append|].
  unfold row_name in Hn. destruct (row_cells row !! 0%nat); [|discriminate].
  simpl in Hn. injection Hn as <-. apply strip_idem.
Qed.

Lemma scrape_listings_well_formed_witness :
  PyStr.startswith (url alpha) site_origin = true
  /\ PyStr.strip (name alpha) = name alpha.
Proof.
  apply (scrape_listings_well_formed (loaded sample_dashboard_page) [alpha] [gamma]).
  - vm_compute. reflexivity.
  - left. apply list_elem_of_here.
Defined.

(** a row has one status: what it emits as current it does not emit as
    upcoming *)
Lemma emits_exclusive (row : Located) :
  emits "current" row = None \/ emits "upcoming" row = None.
Proof.
  unfold emits. destruct (row_status row) as [st|]; simpl; [|now left].
  destruct (String.eqb_spec (PyStr.lower st) "current") as [->|]; [right|now left].
  reflexivity.
Qed.

Lemma omap_exclusive_length {A B : Type} (f g : A -> option B) (l : list A) :
  (forall x, f x = None \/ g x = None) ->
  length (omap f l) + length (omap g l) <= length l.
Proof.
  intros Hfg. induction l as [|x l IH]; [reflexivity|].
  change (omap f (x :: l))
    with (match f x with Some y => y :: omap f l | None => omap f l end).
  change (omap g (x :: l))
    with (match g x with Some y => y :: omap g l | None => omap g l end).
  destruct (Hfg x) as [-> | ->]; [destruct (g x) | destruct (f x)]; simpl; lia.
Qed.

(** X12: no row of the table contributes to both lists, and rows only
    contribute once: the two lists together are at most as long as the
    table body has rows. *)
Theorem scrape_lists_bounded_by_rows
    (d : Dashboard) (soup : Document) (after : list Located)
    (ipo_table tbody : Node) (cur up : list IPOListing) :
  dashboard_load d = Return soup ->
  find_mainboard_header (filter_sees_None d) (located_forest soup) = Return (Some after) ->
  find_next_table after = Some ipo_table ->
  Soup.find "tbody" ipo_table = Some tbody ->
  scrape_ipo_dashboard d = Return (Lists cur up) ->
  length cur + length up <= length (find_all ["tr"] tbody)
  /\ forall row, emits "current" row = None \/ emits "upcoming" row = None.
Proof.
  intros Hload Hh Ht Hb Hs.
  destruct (scrape_lists_inv _ _ _ Hs)
    as (soup' & after' & table' & tbody' & Hload' & Hh' & Ht' & Hb' & -> & ->).
  rewrite Hload in Hload'. injection Hload' as <-.
  rewrite Hh in Hh'. injection Hh' as <-.
  rewrite Ht in Ht'. injection Ht' as <-.
  rewrite Hb in Hb'. injection Hb' as <-.
  split; [|exact emits_exclusive].
  apply omap_exclusive_length, emits_exclusive.
Qed.

Lemma scrape_lists_bounded_by_rows_witness :
  exists tbody,
    length [alpha] + length [gamma] <= length (find_all ["tr"] tbody)
    /\ length (find_all ["tr"] tbody) = 5.
Proof.
  pose (after := default [] (match find_mainboard_header false
                                     (located_forest sample_dashboard_page) with
                             | Return o => o | Raise _ => None end)).
  pose (tbl := default (text "") (find_next_table after)).
  pose (tb := default (text "") (Soup.find "tbody" tbl)).
  exists tb. split; [|vm_compute; reflexivity].
  apply (scrape_lists_bounded_by_rows (loaded sample_dashboard_page)
           sample_dashboard_page after tbl tb [alpha] [gamma]);
    vm_compute; reflexivity.
Defined.

(** ** The text a detail page aggregates to *)

(** X13: when the container is present but every level-2 and level-3
    heading in it mentions the message board (or there is none), the
    extractor returns the empty string: text that stands before the first
    heading or under a skipped heading is not collected. *)
Theorem parse_and_aggregate_data_without_sections
    (html_content : Document) (main_content : Node) :
  first_container "main" html_content main_content ->
  Forall (fun h => PyStr.contains message_board (get_text (element h)) = true)
         (find_all ["h2"; "h3"] main_content) ->
  parse_and_aggregate_data html_content = Some "".
Proof.
  intros Hmain Hall. apply find_div_by_id_first in Hmain.
  unfold parse_and_aggregate_data.
  rewrite Hmain, fold_header_step.
  replace (filter (fun h => negb (PyStr.contains message_board (get_text (element h))))
                  (find_all ["h2"; "h3"] main_content))
    with (@nil Located); [reflexivity|].
  symmetry. induction Hall as [|h hs Hh _ IH]; [reflexivity|].
  rewrite filter_cons_False; [exact IH | now rewrite Hh].
Qed.

Lemma parse_and_aggregate_data_without_sections_witness :
  parse_and_aggregate_data board_only_page = Some ""
  /\ parse_and_aggregate_data split_heading_page = Some "".
Proof.
  split.
  - apply (parse_and_aggregate_data_without_sections board_only_page
             (default (text "") (find_div_by_id "main" board_only_page))).
    + apply find_div_by_id_first. vm_compute. reflexivity.
    + vm_compute find_all. repeat constructor.
  - apply (parse_and_aggregate_data_without_sections split_heading_page
             (default (text "") (find_div_by_id "main" split_heading_page))).
    + apply find_div_by_id_first. vm_compute. reflexivity.
    + vm_compute find_all. repeat constructor.
Defined.

(** X14: the text the extractor returns has no white space at either
    end: stripping it again changes nothing. *)
Theorem parse_and_aggregate_data_is_stripped
    (html_content : Document) (aggregated : string) :
  parse_and_aggregate_data html_content = Some aggregated ->
  PyStr.strip aggregated = aggregated.
Proof.
  unfold parse_and_aggregate_data.
  destruct (find_div_by_id "main" html_content); [|discriminate].
  intros [= <-]. apply strip_idem.
Qed.

Lemma parse_and_aggregate_data_is_stripped_witness :
  PyStr.strip (default "" (parse_and_aggregate_data sample_detail_page))
  = default "" (parse_and_aggregate_data sample_detail_page).
Proof.
  apply (parse_and_aggregate_data_is_stripped sample_detail_page).
  vm_compute. reflexivity.
Defined.

Section Rstrip.

Lemma append_not_empty (p r : string) : r <> "" -> p +:+ r <> "".
Proof. destruct p; [exact id | discriminate]. Qed.

(** what follows a prefix decides what [rstrip] cuts, as long as
    something is left of it *)
Lemma rstrip_append (p q : string) :
  PyStr.rstrip q <> "" -> PyStr.rstrip (p +:+ q) = p +:+ PyStr.rstrip q.
Proof.
  intros Hq. induction p as [|c p IH]; [reflexivity|].
  change (PyStr.rstrip (String c (p +:+ q)) = String c (p +:+ PyStr.rstrip q)).
  cbn [PyStr.rstrip]. rewrite IH.
  destruct (p +:+ PyStr.rstrip q) eqn:Hpr; [|reflexivity].
  now destruct (append_not_empty p _ Hq).
Qed.

Lemma rstrip_append_not_empty (p q : string) :
  PyStr.rstrip q <> "" -> PyStr.rstrip (p +:+ q) <> "".
Proof.
  intros Hq. rewrite rstrip_append by exact Hq. now apply append_not_empty.
Qed.

Lemma rstrip_cons_not_empty (c : ascii) (s : string) :
  PyStr.isspace c = false -> PyStr.rstrip (String c s) <> "".
Proof.
  intros Hc. cbn [PyStr.rstrip]. destruct (PyStr.rstrip s); [rewrite Hc|]; discriminate.
Qed.

End Rstrip.

(** X15: as soon as one level-2 or level-3 heading of the container does
    not mention the message board, the extractor's text begins with the
    section delimiter: it is not empty, even when no section has any
    text. *)
Theorem parse_and_aggregate_data_starts_with_delimiter
    (html_content : Document) (main_content : Node) (h : Located) :
  first_container "main" html_content main_content ->
  h ∈ find_all ["h2"; "h3"] main_content ->
  PyStr.contains message_board (get_text (element h)) = false ->
  exists rest,
    parse_and_aggregate_data html_content = Some ("--- Section: " +:+ rest).
Proof.
  intros Hmain Hin Hmb. apply find_div_by_id_first in Hmain.
  unfold parse_and_aggregate_data.
  rewrite Hmain, fold_header_step.
  assert (Hkept : h ∈ filter (fun h0 => negb (PyStr.contains message_board
                                                (get_text (element h0))))
                             (find_all ["h2"; "h3"] main_content)).
  { apply list_elem_of_filter. split; [now rewrite Hmb | exact Hin]. }
  destruct (filter _ (find_all ["h2"; "h3"] main_content)) as [|k ks];
    [now apply not_elem_of_nil in Hkept|].
  cbn [map]. rewrite join_empty_cons.
  unfold section_block at 1, section_delimiter.
  rewrite !append_assoc.
  set (tail := " ---" +:+ PyStr.nl +:+ section_text k
               +:+ PyStr.join "" (map section_block ks)).
  exists (PyStr.rstrip (get_text_strip "" (element k) +:+ tail)).
  f_equal.
  change (PyStr.rstrip ("--- Section: " +:+ get_text_strip "" (element k) +:+ tail)
          = "--- Section: " +:+ PyStr.rstrip (get_text_strip "" (element k) +:+ tail)).
  apply rstrip_append, rstrip_append_not_empty.
  apply (rstrip_append_not_empty " "). now apply rstrip_cons_not_empty.
Qed.

Lemma parse_and_aggregate_data_starts_with_delimiter_witness :
  exists rest,
    parse_and_aggregate_data commented_heading_page = Some ("--- Section: " +:+ rest).
Proof.
  pose (main := default (text "") (find_div_by_id "main" commented_heading_page)).
  pose (h := default {| element := text ""; following := [] |}
                     (head (find_all ["h2"; "h3"] main))).
  apply (parse_and_aggregate_data_starts_with_delimiter commented_heading_page main h).
  - apply find_div_by_id_first. vm_compute. reflexivity.
  - vm_compute. apply list_elem_of_here.
  - vm_compute. reflexivity.
Defined.

(** ** The section parser, for every text *)

Lemma fold_parser_step_no_header (lines : list string) (st : ParserState) :
  Forall (fun line => is_section_header (PyStr.strip line) = false) lines ->
  current_section st = None -> sections st = ∅ ->
  current_section (fold_left parser_step lines st) = None
  /\ sections (fold_left parser_step lines st) = ∅.
Proof.
  intros Hall. revert st. induction Hall as [|line lines Hl _ IH]; intros st Hc Hs;
    cbn [fold_left]; [now split|].
  apply IH; unfold parser_step; rewrite Hl;
    destruct (negb (PyStr.truthy (PyStr.strip line))); assumption.
Qed.

(** X16: a text none of whose lines is a section header parses to the
    empty mapping: lines that come before the first header are dropped. *)
Theorem parse_analysis_sections_without_header (analysis_text : string) :
  Forall (fun line => is_section_header (PyStr.strip line) = false)
         (PyStr.split "010"%char analysis_text) ->
  parse_analysis_sections analysis_text = ∅.
Proof.
  intros Hall. unfold parse_analysis_sections, save_section. cbv zeta.
  match goal with
  | |- context [fold_left parser_step _ ?st] =>
      destruct (fold_parser_step_no_header _ st Hall eq_refl eq_refl) as [-> ->]
  end.
  reflexivity.
Qed.

Lemma parse_analysis_sections_without_header_witness :
  parse_analysis_sections
    (api_error_prefix +:+ "429 quota exceeded" +:+ PyStr.nl +:+ "Retry later.")
  = ∅.
Proof.
  apply parse_analysis_sections_without_header.
  vm_compute. repeat constructor.
Defined.

Lemma save_section_opened (lines : list string) (st : ParserState) (k v : string) :
  keys_opened lines st -> save_section st !! k = Some v -> opened_title lines k.
Proof.
  intros [Hs Hc]. unfold save_section.
  destruct (current_section st) as [t|]; [|apply Hs].
  destruct t as [|c t]; [apply Hs|]. cbn [PyStr.truthy].
  intros [[<- _] | [_ Hk]]%lookup_insert_Some; [|now apply (Hs k v)].
  now apply Hc.
Qed.

Lemma parser_step_opened (lines : list string) (st : ParserState) (raw : string) :
  raw ∈ lines -> keys_opened lines st -> keys_opened lines (parser_step st raw).
Proof.
  intros Hin Hst. unfold parser_step.
  destruct (negb (PyStr.truthy (PyStr.strip raw))); [exact Hst|].
  destruct (is_section_header (PyStr.strip raw)) eqn:Hh.
  - split; cbn [sections current_section].
    + intros k v. now apply save_section_opened.
    + intros t [= <-] Ht. split; [exact Ht|]. now exists raw.
  - exact Hst.
Qed.

Lemma fold_parser_step_opened (lines l : list string) (st : ParserState) :
  (forall x, x ∈ l -> x ∈ lines) -> keys_opened lines st ->
  keys_opened lines (fold_left parser_step l st).
Proof.
  revert st. induction l as [|x l IH]; intros st Hsub Hst; cbn [fold_left];
    [exact Hst|].
  apply IH.
  - intros y Hy. apply Hsub. now apply list_elem_of_further.
  - apply parser_step_opened; [apply Hsub, list_elem_of_here | exact Hst].
Qed.

(** X17: every key of the mapping the parser returns is non-empty and is
    the title of one of the header lines of the text: the stripped line
    with its asterisks, colons and leading numbering removed. *)
Theorem parse_analysis_sections_keys_are_titles
    (analysis_text k v : string) :
  parse_analysis_sections analysis_text !! k = Some v ->
  k <> ""
  /\ exists line,
       line ∈ PyStr.split "010"%char analysis_text
       /\ is_section_header (PyStr.strip line) = true
       /\ k = section_title (PyStr.strip line).
Proof.
  unfold parse_analysis_sections. cbv zeta.
  apply (save_section_opened (PyStr.split "010"%char analysis_text)).
  apply fold_parser_step_opened; [auto|].
  split; cbn [sections current_section]; [|discriminate].
  intros k0 v0. rewrite lookup_empty. discriminate.
Qed.

Lemma parse_analysis_sections_keys_are_titles_witness :
  "Verdict" <> ""
  /\ exists line,
       line ∈ PyStr.split "010"%char numbered_text
       /\ is_section_header (PyStr.strip line) = true
       /\ "Verdict" = section_title (PyStr.strip line).
Proof.
  apply (parse_analysis_sections_keys_are_titles numbered_text "Verdict" "Line B").
  vm_compute. reflexivity.
Defined.

(** ** The analysis key *)

Section KeyDigits.

(** the decimal digits that [pretty] writes contain no underscore *)
Lemma pretty_N_go_no_underscore (x : N) (s : string) :
  has_char "_" s = false -> has_char "_" (pretty_N_go x s) = false.
Proof.
  revert s. induction (N.lt_wf_0 x) as [x _ IH]; intros s Hs.
  assert (x = 0 \/ 0 < x)%N as [-> | Hpos] by lia.
  - now rewrite pretty_N_go_0.
  - rewrite pretty_N_go_step by exact Hpos.
    apply IH; [now apply N.div_lt|].
    cbn [has_char]. rewrite Hs, orb_false_r.
    unfold pretty_N_char. now repeat case_match.
Qed.

Lemma pretty_nat_no_underscore (n : nat) : has_char "_" (pretty n) = false.
Proof.
  unfold pretty, pretty_nat, pretty, pretty_N.
  case_decide; [reflexivity|]. now apply pretty_N_go_no_underscore.
Qed.

(** two texts that agree after an underscore-free prefix and an
    underscore agree piece by piece *)
Lemma split_at_underscore (d1 d2 a b : string) :
  has_char "_" d1 = false -> has_char "_" d2 = false ->
  d1 +:+ "_" +:+ a = d2 +:+ "_" +:+ b ->
  d1 = d2 /\ a = b.
Proof.
  revert d2. induction d1 as [|c d1 IH]; intros [|c' d2] H1 H2 Heq.
  - change (String "_" a = String "_" b) in Heq. now injection Heq as ->.
  - change (String "_" a = String c' (d2 +:+ "_" +:+ b)) in Heq.
    injection Heq as <- _. cbn [has_char] in H2. discriminate H2.
  - change (String c (d1 +:+ "_" +:+ a) = String "_" b) in Heq.
    injection Heq as -> _. cbn [has_char] in H1. discriminate H1.
  - change (String c (d1 +:+ "_" +:+ a) = String c' (d2 +:+ "_" +:+ b)) in Heq.
    injection Heq as -> Heq. cbn [has_char] in H1, H2.
    apply orb_false_elim in H1 as [_ H1]. apply orb_false_elim in H2 as [_ H2].
    destruct (IH d2 H1 H2 Heq) as [-> ->]. now split.
Qed.

End KeyDigits.

(** X18: for the two types the handler admits, the analysis key tells
    type, index and name apart: two requests share a key only when they
    agree on all three, so the record memoized for one listing is never
    served for a listing of another type, index or name. *)
Theorem ipo_key_of_injective
    (type1 type2 : string) (index1 index2 : nat) (ipo1 ipo2 : IPOListing) :
  type1 = "current" \/ type1 = "upcoming" ->
  type2 = "current" \/ type2 = "upcoming" ->
  ipo_key_of type1 index1 ipo1 = ipo_key_of type2 index2 ipo2 ->
  type1 = type2 /\ index1 = index2 /\ name ipo1 = name ipo2.
Proof.
  unfold ipo_key_of.
  intros [-> | ->] [-> | ->] Heq; try (exfalso; discriminate Heq);
    (split; [reflexivity|]).
  - apply (inj (String.append "current_")) in Heq.
    apply split_at_underscore in Heq as [Hi Hn];
      auto using pretty_nat_no_underscore.
    split; [now apply (inj pretty) | exact Hn].
  - apply (inj (String.append "upcoming_")) in Heq.
    apply split_at_underscore in Heq as [Hi Hn];
      auto using pretty_nat_no_underscore.
    split; [now apply (inj pretty) | exact Hn].
Qed.

Lemma ipo_key_of_injective_witness :
  "current" = "current" /\ 0 = 0 /\ name alpha = name (a_ipo old_alpha_record).
Proof.
  apply (ipo_key_of_injective "current" "current" 0 0 alpha (a_ipo old_alpha_record)).
  - now left.
  - now left.
  - reflexivity.
Defined.

(** ** The body of the last section *)

(** lines without a header only extend the open section *)
Lemma fold_parser_step_body (body : list string) (st : ParserState) :
  Forall (fun line => is_section_header (PyStr.strip line) = false) body ->
  fold_left parser_step body st
  = {| sections := sections st;
       current_section := current_section st;
       current_content :=
         (current_content st
          ++ filter (fun l => PyStr.truthy l) (map PyStr.strip body))%list |}.
Proof.
  intros Hall. revert st. induction Hall as [|line body Hl _ IH]; intros st;
    cbn [fold_left map].
  - rewrite filter_nil, app_nil_r. now destruct st.
  - rewrite IH. unfold parser_step. rewrite Hl.
    destruct (PyStr.truthy (PyStr.strip line)) eqn:Ht; cbn [negb].
    + rewrite filter_cons_True by now rewrite Ht.
      cbn [sections current_section current_content].
      now rewrite <- app_assoc.
    + rewrite filter_cons_False by now rewrite Ht. reflexivity.
Qed.

(** a header line closes the open section and opens its own *)
Lemma parser_step_header (st : ParserState) (raw : string) :
  is_section_header (PyStr.strip raw) = true ->
  parser_step st raw
  = {| sections := save_section st;
       current_section := Some (section_title (PyStr.strip raw));
       current_content := [] |}.
Proof.
  intros Hh. unfold parser_step.
  destruct (PyStr.strip raw) as [|c s]; [discriminate Hh|].
  cbn [PyStr.truthy negb]. now rewrite Hh.
Qed.

(** X19: when the last header line of a text opens a non-empty title,
    the mapping holds under that title the lines that follow it, each
    stripped, the blank ones dropped, joined by newlines, whatever came
    before that header. *)
Theorem parse_analysis_sections_last_body
    (analysis_text header : string) (before body : list string) :
  PyStr.split "010"%char analysis_text = (before ++ header :: body)%list ->
  is_section_header (PyStr.strip header) = true ->
  section_title (PyStr.strip header) <> "" ->
  Forall (fun line => is_section_header (PyStr.strip line) = false) body ->
  parse_analysis_sections analysis_text !! section_title (PyStr.strip header)
  = Some (PyStr.join PyStr.nl
            (filter (fun l => PyStr.truthy l) (map PyStr.strip body))).
Proof.
  intros Hsplit Hh Ht Hbody. unfold parse_analysis_sections. cbv zeta.
  rewrite Hsplit, fold_left_app. cbn [fold_left].
  rewrite (fold_parser_step_body body _ Hbody).
  rewrite (parser_step_header _ header Hh).
  unfold save_section at 1. cbn [current_section current_content sections app].
  destruct (section_title (PyStr.strip header)) as [|c t]; [now destruct Ht|].
  cbn [PyStr.truthy]. apply lookup_insert_eq.
Qed.

Lemma parse_analysis_sections_last_body_witness :
  parse_analysis_sections emphasis_text !! "Verdict" = Some "Line B".
Proof.
  apply (parse_analysis_sections_last_body emphasis_text "**Verdict:**"
           ["**Snapshot:**"; "Line A"] ["Line B"]).
  - vm_compute. reflexivity.
  - reflexivity.
  - discriminate.
  - repeat constructor.
Defined.
